(** * brainzbot-core: the log views (botbot/apps/logs/views.py)

    A shallow embedding of the pagination and navigation code of the log
    viewer: day windows, cross-day previous/next links, the permalink
    cache, the missed-activity window and the timeline context.

    Conventions of the embedding
    - an instant (a timezone-aware [datetime], a [timestamp] column) is a
      [Z]: microseconds since 1970-01-01T00:00:00Z;
    - a calendar day (the year/month/day fields of a [date] or [datetime])
      is a [Z]: days since 1970-01-01;
    - a Django [QuerySet] is its rows together with its ordering;
    - [self] is a record, methods that assign attributes return the new
      record; an exception is a constructor of [result]. *)

From stdpp Require Import gmap strings list pretty.
From Stdlib Require Import ZArith Lia.

Local Open Scope Z_scope.

(** ** Python's datetime, as far as the views use it *)

Module Clock.

Definition US_PER_MS : Z := 1000.
Definition US_PER_DAY : Z := 86400000000.

(** [date(1970, 1, 1).toordinal()] *)
Definition EPOCH_ORDINAL : Z := 719163.

(** datetime.py: [_is_leap], [_days_in_month], [_days_before_year],
    [_days_before_month], [_ymd2ord], [_check_date_fields]. *)
Definition is_leap (y : Z) : bool :=
  (y mod 4 =? 0) && (negb (y mod 100 =? 0) || (y mod 400 =? 0)).

Definition DAYS_IN_MONTH : list Z :=
  [31; 28; 31; 30; 31; 30; 31; 31; 30; 31; 30; 31].

Definition days_in_month (y m : Z) : Z :=
  if (m =? 2) && is_leap y then 29
  else default 0 (DAYS_IN_MONTH !! Z.to_nat (m - 1)).

Definition days_before_year (y : Z) : Z :=
  let p := y - 1 in p * 365 + p / 4 - p / 100 + p / 400.

Definition days_before_month (y m : Z) : Z :=
  foldr Z.add 0 (take (Z.to_nat (m - 1)) DAYS_IN_MONTH)
  + (if (2 <? m) && is_leap y then 1 else 0).

Definition ymd2ord (y m d : Z) : Z :=
  days_before_year y + days_before_month y m + d.

(** [True] when [datetime(year, month, day)] does not raise ValueError
    (MINYEAR = 1, MAXYEAR = 9999). *)
Definition check_date_fields (y m d : Z) : bool :=
  (1 <=? y) && (y <=? 9999) && (1 <=? m) && (m <=? 12)
  && (1 <=? d) && (d <=? days_in_month y m).

(** The calendar day of valid fields, counted from the epoch. *)
Definition day_of_ymd (y m d : Z) : Z := ymd2ord y m d - EPOCH_ORDINAL.

(** [date.weekday()]: Monday is 0.  1970-01-01 was a Thursday. *)
Definition weekday (day : Z) : Z := (day + 3) mod 7.

(** A pytz timezone.  [tz_utcoffset t] is the offset (in microseconds)
    [astimezone] resolves at the instant [t]; [tz_unlocalized] is the
    fixed offset of the zone object itself, the one a datetime gets when
    the zone is passed as [tzinfo=] to the constructor. *)
Record tzinfo := Tz {
  tz_zone : string;
  tz_unlocalized : Z;
  tz_utcoffset : Z -> Z
}.

Definition UTC : tzinfo := Tz "UTC" 0 (fun _ => 0).

(** The two kinds of values the views keep in [self.date] and pass to
    [channel_date_url]: a [datetime.date], or an aware
    [datetime.datetime] (its calendar day, the microseconds since its
    local midnight, its UTC offset). *)
Inductive pytime :=
| PyDate (day : Z)
| PyDateTime (day : Z) (time_of_day : Z) (utcoffset : Z).

(** The [.year/.month/.day] fields, as one calendar day. *)
Definition calendar_day (d : pytime) : Z :=
  match d with
  | PyDate day => day
  | PyDateTime day _ _ => day
  end.

(** [d + datetime.timedelta(days=n)], for a result that is still a date:
    Python raises OverflowError past 9999-12-31 (see [MAX_DAY] below for
    the statements that need the bound). *)
Definition add_days (n : Z) (d : pytime) : pytime :=
  match d with
  | PyDate day => PyDate (day + n)
  | PyDateTime day tod off => PyDateTime (day + n) tod off
  end.

(** [datetime.MINYEAR] and [datetime.MAXYEAR]: the first and the last day
    a [date] or a [datetime] can hold, 0001-01-01 and 9999-12-31. *)
Definition MIN_DAY : Z := day_of_ymd 1 1 1.
Definition MAX_DAY : Z := day_of_ymd 9999 12 31.

(** The instant a value stands for when it is compared with the
    [timestamp] column.  Django turns a [date] into midnight of the
    default time zone (taken to be UTC, the project's TIME_ZONE). *)
Definition instant_of (d : pytime) : Z :=
  match d with
  | PyDate day => day * US_PER_DAY
  | PyDateTime day tod off => day * US_PER_DAY + tod - off
  end.

(** A [timestamp] column value read back: an aware datetime in UTC. *)
Definition utc_datetime (t : Z) : pytime :=
  PyDateTime (t / US_PER_DAY) (t mod US_PER_DAY) 0.

(** [timestamp.date()] of such a value. *)
Definition utc_date (t : Z) : pytime := PyDate (t / US_PER_DAY).

End Clock.
Export Clock.

(** ** The message store: Log rows and QuerySets *)

Module Store.

Record Log := MkLog {
  pk : Z;
  timestamp : Z;
  nick : string;
  command : string
}.

Inductive ordering := Ascending | Descending.

(** Modelled from the spec: the default ordering of the Log model
    ([Meta.ordering] in botbot/apps/logs/models.py, which is not among
    the sources).  The spec's DayResolver reads "the latest message with
    timestamp < day.start" from an unordered [filter(...)[0]], so the
    default is newest first. *)
Definition Log_Meta_ordering : ordering := Descending.

Record QuerySet := MkQS {
  qs_rows : list Log;
  qs_ordering : ordering
}.

Definition objects (rows : list Log) : QuerySet := MkQS rows Log_Meta_ordering.

Definition qs_filter (p : Log -> bool) (qs : QuerySet) : QuerySet :=
  MkQS (List.filter p (qs_rows qs)) (qs_ordering qs).

Definition order_by (o : ordering) (qs : QuerySet) : QuerySet :=
  MkQS (qs_rows qs) o.

Definition before (o : ordering) (a b : Log) : bool :=
  match o with
  | Ascending => timestamp a <=? timestamp b
  | Descending => timestamp b <=? timestamp a
  end.

Fixpoint insert_row (o : ordering) (x : Log) (l : list Log) : list Log :=
  match l with
  | [] => [x]
  | y :: l' => if before o x y then x :: l else y :: insert_row o x l'
  end.

(** Rows with equal timestamps keep their stored order. *)
Definition sort_rows (o : ordering) (l : list Log) : list Log :=
  foldr (insert_row o) [] l.

(** Evaluating the query: the rows in the order of [ORDER BY]. *)
Definition qs_list (qs : QuerySet) : list Log :=
  sort_rows (qs_ordering qs) (qs_rows qs).

(** [qs[0]]: [None] stands for IndexError. *)
Definition qs_first (qs : QuerySet) : option Log := head (qs_list qs).

Definition qs_exists (qs : QuerySet) : bool :=
  match qs_rows qs with [] => false | _ => true end.

Definition qs_count (qs : QuerySet) : Z := Z.of_nat (length (qs_rows qs)).

(** The lookups of the views. *)
Definition timestamp__lt (t : Z) (r : Log) : bool := timestamp r <? t.
Definition timestamp__lte (t : Z) (r : Log) : bool := timestamp r <=? t.
Definition timestamp__gt (t : Z) (r : Log) : bool := t <? timestamp r.
Definition timestamp__gte (t : Z) (r : Log) : bool := t <=? timestamp r.
Definition timestamp__range (lo hi : Z) (r : Log) : bool :=
  (lo <=? timestamp r) && (timestamp r <=? hi).

End Store.
Export Store.

(** ** Exceptions *)

Inductive exn :=
| Http404 (msg : string)
| EmptyPage (msg : string)
| ValueError
| OverflowError
| IndexError
| KeyError (key : string).

Inductive result (A : Type) :=
| Ok (a : A)
| Raise (e : exn).
Arguments Ok {A} a.
Arguments Raise {A} e.

#[global] Instance result_ret : MRet result := fun A a => Ok a.

#[global] Instance result_bind : MBind result := fun A B k r =>
  match r with
  | Ok a => k a
  | Raise e => Raise e
  end.

(** ** django.core.paginator *)

Module Paginator.

(** [Paginator(object_list, per_page, orphans=0, allow_empty_first_page)];
    the views never set [paginate_orphans]. *)
Record Paginator := MkPaginator {
  object_list : QuerySet;
  per_page : Z;
  allow_empty_first_page : bool
}.

Record Page := MkPage {
  page_objects : list Log;
  number : Z;
  paginator : Paginator
}.

(** [int(math.ceil(a / float(b)))] for a positive [b]. *)
Definition ceil_div (a b : Z) : Z := (a + b - 1) / b.

Definition count (p : Paginator) : Z := qs_count (object_list p).

Definition num_pages (p : Paginator) : Z :=
  if (count p =? 0) && negb (allow_empty_first_page p) then 0
  else ceil_div (Z.max 1 (count p)) (per_page p).

Definition validate_number (p : Paginator) (n : Z) : result Z :=
  if n <? 1 then Raise (EmptyPage "That page number is less than 1")
  else if num_pages p <? n then
    if (n =? 1) && allow_empty_first_page p then Ok n
    else Raise (EmptyPage "That page contains no results")
  else Ok n.

(** [object_list[bottom:top]] *)
Definition slice (bottom top : Z) (l : list Log) : list Log :=
  take (Z.to_nat (top - bottom)) (drop (Z.to_nat bottom) l).

Definition page (p : Paginator) (n : Z) : result Page :=
  n ← validate_number p n;
  let bottom := (n - 1) * per_page p in
  let top := bottom + per_page p in
  let top := if count p <=? top then count p else top in
  Ok (MkPage (slice bottom top (qs_list (object_list p))) n p).

(** [range(1, num_pages + 1)] *)
Definition page_range (p : Paginator) : list Z :=
  Z.of_nat <$> seq 1 (Z.to_nat (num_pages p)).

Definition has_next (pg : Page) : bool := number pg <? num_pages (paginator pg).
Definition has_previous (pg : Page) : bool := 1 <? number pg.
Definition next_page_number (pg : Page) : result Z :=
  validate_number (paginator pg) (number pg + 1).
Definition previous_page_number (pg : Page) : result Z :=
  validate_number (paginator pg) (number pg - 1).

(** [log in page.object_list]: model instances are equal when their
    primary keys are. *)
Definition contains (log : Log) (l : list Log) : bool :=
  existsb (fun r => pk r =? pk log) l.

End Paginator.
Export Paginator.

(** ** The request, the channel and the view object *)

(** What the views take from outside this repository: Python's [int] on
    a string ([None] stands for ValueError), [pytz.timezone] ([None]
    stands for UnknownTimeZoneError), and the clock read by [_utc_now]
    (one reading serves a whole request). *)
Record Platform := MkPlatform {
  py_int : string -> option Z;
  pytz_timezone : string -> option tzinfo;
  utc_now : Z
}.

Inductive pval :=
| PStr (s : string)
| PInt (n : Z).

(** A [QueryDict]: every key holds a list of values; [get] reads the last
    one, [d[k] = v] replaces the list, [update] appends. *)
Definition qd_get {V} (d : gmap string (list V)) (k : string) : option V :=
  l ← d !! k; last l.

Definition qd_set {V} (k : string) (v : V) (d : gmap string (list V))
  : gmap string (list V) := <[k := [v]]> d.

Definition qd_update {V} (d : gmap string (list V)) (kvs : list (string * V))
  : gmap string (list V) :=
  foldl (fun acc kv => <[kv.1 := default [] (acc !! kv.1) ++ [kv.2]]> acc) d kvs.

(** [request.GET.copy()]: the copy the link builders assign integers to. *)
Definition qd_copy (d : gmap string (list string)) : gmap string (list pval) :=
  (fun l : list string => PStr <$> l) <$> d.

(** The value of [reverse_channel(channel, viewname, kwargs)] for the
    day views: the view name and the day the year/month/day kwargs name. *)
Record url := Url {
  u_viewname : string;
  u_day : Z
}.

(** A page link: [None], the empty string, or [f"{url}?{params.urlencode()}"]. *)
Inductive link :=
| LinkNone
| LinkEmpty
| Href (u : url) (params : gmap string (list pval)).

Definition truthy (l : link) : bool :=
  match l with Href _ _ => true | _ => false end.

Inductive format := Text | Ajax | Html.

Record Channel := MkChannel {
  filtered_logs : list Log;   (* channel.filtered_logs() *)
  log_set : list Log          (* channel.log_set.all() *)
}.

(** [self], after [dispatch] has run [_setup_response_format]. *)
Record View := MkView {
  platform : Platform;
  (* class attributes *)
  paginate_by : Z;
  allow_empty : bool;
  newest_first : bool;
  (* the request *)
  fmt : format;
  kwargs : gmap string string;
  GET : gmap string (list string);
  channel : Channel;
  (* instance attributes *)
  date : pytime;
  view_object_list : QuerySet;
  next_page : link;
  prev_page : link;
  current_page : link;
  is_current : bool;
  fetch_after : option Z
}.

Definition set_date (d : pytime) (v : View) : View :=
  MkView (platform v) (paginate_by v) (allow_empty v) (newest_first v) (fmt v)
    (kwargs v) (GET v) (channel v) d (view_object_list v) (next_page v)
    (prev_page v) (current_page v) (is_current v) (fetch_after v).

Definition set_kwargs (k : gmap string string) (v : View) : View :=
  MkView (platform v) (paginate_by v) (allow_empty v) (newest_first v) (fmt v)
    k (GET v) (channel v) (date v) (view_object_list v) (next_page v)
    (prev_page v) (current_page v) (is_current v) (fetch_after v).

Definition set_object_list (q : QuerySet) (v : View) : View :=
  MkView (platform v) (paginate_by v) (allow_empty v) (newest_first v) (fmt v)
    (kwargs v) (GET v) (channel v) (date v) q (next_page v)
    (prev_page v) (current_page v) (is_current v) (fetch_after v).

Definition set_links (n p c : link) (v : View) : View :=
  MkView (platform v) (paginate_by v) (allow_empty v) (newest_first v) (fmt v)
    (kwargs v) (GET v) (channel v) (date v) (view_object_list v) n p c
    (is_current v) (fetch_after v).

Definition set_is_current (b : bool) (v : View) : View :=
  MkView (platform v) (paginate_by v) (allow_empty v) (newest_first v) (fmt v)
    (kwargs v) (GET v) (channel v) (date v) (view_object_list v) (next_page v)
    (prev_page v) (current_page v) b (fetch_after v).

Definition set_fetch_after (t : Z) (v : View) : View :=
  MkView (platform v) (paginate_by v) (allow_empty v) (newest_first v) (fmt v)
    (kwargs v) (GET v) (channel v) (date v) (view_object_list v) (next_page v)
    (prev_page v) (current_page v) (is_current v) (Some t).

(** ** LogDateMixin *)

Definition _get_base_queryset (self : View) : QuerySet :=
  objects (filtered_logs (channel self)).

(** [channel_date_url(date=None)]: [None] falls back to [self.date]. *)
Definition channel_date_url (self : View) (d : option pytime) : url :=
  let d := default (date self) d in
  let viewname := match fmt self with Text => "log_day_text" | _ => "log_day" end in
  Url viewname (calendar_day d).

(** [request_timezone] (a cached property of the day views). *)
Definition request_timezone (self : View) : tzinfo :=
  match pytz_timezone (platform self) (default "" (qd_get (GET self) "tz")) with
  | Some tz => tz
  | None => UTC
  end.

Definition _local_date_at_midnight (self : View) (ts : Z) : pytime :=
  let off := tz_utcoffset (request_timezone self) ts in
  PyDateTime ((ts + off) / US_PER_DAY) 0 off.

Definition _get_previous_date (self : View) : option pytime :=
  match qs_first (qs_filter (timestamp__lt (instant_of (date self)))
                            (_get_base_queryset self)) with
  | Some r => Some (_local_date_at_midnight self (timestamp r))
  | None => None
  end.

Definition _get_next_date (self : View) : option pytime :=
  match qs_first (order_by Ascending
                    (qs_filter (timestamp__gte (instant_of (add_days 1 (date self))))
                               (_get_base_queryset self))) with
  | Some r => Some (_local_date_at_midnight self (timestamp r))
  | None => None
  end.

Definition _date_query_set (self : View) (d : pytime) : QuerySet :=
  qs_filter (fun r => timestamp__gte (instant_of d) r
                      && timestamp__lt (instant_of (add_days 1 d)) r)
            (_get_base_queryset self).

(** ** _timeline_context *)

(** The template variables: [{}], or the four entries of [result]. *)
Inductive timeline_vars (K : Type) :=
| NoVars
| Vars (timeline : list (K * list Z)) (this_week last_week : Z)
       (last_month_real last_month_adjusted : Z).
Arguments NoVars {K}.
Arguments Vars {K} timeline this_week last_week last_month_real last_month_adjusted.

(** [timeline.popitem(last=True)[1][-1]] with what is left of [timeline]. *)
Definition pop_last_month {K} (timeline : list (K * list Z))
  : result (list (K * list Z) * Z) :=
  match last timeline with
  | None => Raise (KeyError "dictionary is empty")
  | Some (_, months) =>
      match last months with
      | None => Raise IndexError
      | Some d => Ok (removelast timeline, d)
      end
  end.

Definition adjust_last_month (last_monday last_week last_month : Z) : Z :=
  if last_week <=? last_month then last_week - 1
  else if last_monday <=? last_month then last_monday - 1
  else last_month.

Definition _timeline_context {K} (now : Z) (timeline : list (K * list Z))
  : result (timeline_vars K) :=
  match timeline with
  | [] => Ok NoVars
  | _ =>
      let today := now / US_PER_DAY in
      let last_monday := today - weekday today in
      let last_week := last_monday - 7 in
      '(timeline, last_month) ← pop_last_month timeline;
      let last_month_adjusted := adjust_last_month last_monday last_week last_month in
      Ok (Vars timeline last_monday last_week last_month last_month_adjusted)
  end.

(** ** LogViewer and ListView *)

Definition get_ordered_queryset (self : View) (qs : QuerySet) : QuerySet :=
  order_by (if newest_first self then Descending else Ascending) qs.

(** [self.get_paginator(queryset, per_page)] as the views call it
    themselves, with two arguments: Django's default for
    [allow_empty_first_page] is True. *)
Definition get_paginator (self : View) (qs : QuerySet) (per_page : Z) : Paginator :=
  MkPaginator qs per_page true.

(** The call inside [MultipleObjectMixin.paginate_queryset]:
    [get_paginator(queryset, page_size, orphans=...,
    allow_empty_first_page=self.get_allow_empty())]. *)
Definition ListView_get_paginator (self : View) (qs : QuerySet) (per_page : Z)
  : Paginator :=
  MkPaginator qs per_page (allow_empty self).

(** [x or y] on optional strings: the empty string is false. *)
Definition or_else (x y : option string) : option string :=
  match x with
  | Some s => if String.eqb s "" then y else x
  | None => y
  end.

(** [MultipleObjectMixin.paginate_queryset]:
    [page = kwargs.get("page") or GET.get("page") or 1], then [int(page)],
    the literal "last", or a 404; an invalid page is a 404 as well. *)
Definition ListView_paginate_queryset (self : View) (queryset : QuerySet)
    (page_size : Z) : result (Paginator * Page) :=
  let paginator := ListView_get_paginator self queryset page_size in
  page_number ←
    match or_else (or_else (kwargs self !! "page") (qd_get (GET self) "page"))
                  None with
    | None => Ok 1
    | Some s =>
        match py_int (platform self) s with
        | Some n => Ok n
        | None =>
            if String.eqb s "last" then Ok (num_pages paginator)
            else Raise (Http404 "Page is not 'last', nor can it be converted to an int.")
        end
    end;
  match page paginator page_number with
  | Ok pg => Ok (paginator, pg)
  | Raise (EmptyPage msg) => Raise (Http404 msg)
  | Raise e => Raise e
  end.

(** ** DayLogViewer *)

Definition get_queryset (self : View) : QuerySet :=
  let qs := _get_base_queryset self in
  let qs := get_ordered_queryset self qs in
  let start := date self in
  let end_ := add_days 1 start in
  qs_filter (fun r => timestamp__gte (instant_of start) r
                      && timestamp__lt (instant_of end_) r) qs.

Definition _date_paginator (self : View) (d : pytime) : Paginator :=
  let qs := _date_query_set self d in
  get_paginator self qs (paginate_by self).

Definition get_previous_page_link (self : View) (pg : Page) : result link :=
  let u := channel_date_url self None in
  let params := qd_copy (GET self) in
  if negb (has_previous pg) then
    match _get_previous_date self with
    | None => Ok LinkNone
    | Some d =>
        let paginator := _date_paginator self d in
        let params := qd_set "page" (PInt (num_pages paginator)) params in
        let u := channel_date_url self (Some d) in
        Ok (Href u params)
    end
  else
    n ← previous_page_number pg;
    Ok (Href u (qd_set "page" (PInt n) params)).

Definition get_next_page_link (self : View) (pg : Page) : result link :=
  let u := channel_date_url self None in
  let params := qd_copy (GET self) in
  if negb (has_next pg) then
    match _get_next_date self with
    | Some d =>
        let u := channel_date_url self (Some d) in
        Ok (Href u (qd_set "page" (PInt 1) params))
    | None => Ok LinkEmpty
    end
  else
    n ← next_page_number pg;
    Ok (Href u (qd_set "page" (PInt n) params)).

Definition get_current_page_link (self : View) (pg : Page) : link :=
  let params := qd_copy (GET self) in
  let d := utc_datetime (utc_now (platform self)) in
  let u := channel_date_url self (Some d) in
  Href u (qd_set "page" (PInt (number pg)) params).

(** [PaginatorPageLinksMixin.paginate_queryset], on a DayLogViewer: the
    three link methods are the overrides above. *)
Definition Mixin_paginate_queryset (self : View) (queryset : QuerySet)
    (page_size : Z) : result (View * Paginator * Page) :=
  '(paginator, pg) ← ListView_paginate_queryset self queryset page_size;
  n ← get_next_page_link self pg;
  p ← get_previous_page_link self pg;
  let c := get_current_page_link self pg in
  Ok (set_links n p c self, paginator, pg).

Definition paginate_queryset (self : View) (queryset : QuerySet)
    (page_size : Z) : result (View * Paginator * Page) :=
  '(self, paginator, pg) ← Mixin_paginate_queryset self queryset page_size;
  let self := if negb (truthy (next_page self)) then set_is_current true self
              else self in
  Ok (self, paginator, pg).

Definition has_key (k : string) (d : gmap string string) : bool :=
  match d !! k with Some _ => true | None => false end.

Definition INT_MIN : Z := - 2 ^ 31.
Definition INT_MAX : Z := 2 ^ 31 - 1.

Definition fits_int (n : Z) : bool := (INT_MIN <=? n) && (n <=? INT_MAX).

(** [datetime.datetime(year=y, month=m, day=d, tzinfo=tz)]: arguments that
    do not fit a C int raise OverflowError, fields out of range
    ValueError; the zone object is attached as it is. *)
Definition datetime_ymd (y m d : Z) (tz : tzinfo) : result pytime :=
  if negb (fits_int y && fits_int m && fits_int d) then Raise OverflowError
  else if check_date_fields y m d then
    Ok (PyDateTime (day_of_ymd y m d) 0 (tz_unlocalized tz))
  else Raise ValueError.

(** [int(s)] *)
Definition int (self : View) (s : string) : result Z :=
  match py_int (platform self) s with
  | Some n => Ok n
  | None => Raise ValueError
  end.

Definition set_view_date (self : View) : result (View * pytime) :=
  if forallb (fun field => has_key field (kwargs self)) ["year"; "month"; "day"] then
    let attempt :=
      y ← int self (default "" (kwargs self !! "year"));
      m ← int self (default "" (kwargs self !! "month"));
      d ← int self (default "" (kwargs self !! "day"));
      datetime_ymd y m d (request_timezone self) in
    match attempt with
    | Ok d => Ok (self, d)
    | Raise ValueError => Raise (Http404 "Invalid date.")
    | Raise e => Raise e
    end
  else
    let self := set_kwargs (<["page" := "last"]> (kwargs self)) self in
    Ok (self, utc_date (utc_now (platform self))).

Definition _nearby_log_url (self : View) : option url :=
  let closet_qs :=
    qs_filter (timestamp__lte (instant_of (date self)))
              (order_by Descending (objects (filtered_logs (channel self)))) in
  let closet_qs :=
    if negb (qs_exists closet_qs) then
      qs_filter (timestamp__gte (instant_of (date self)))
                (order_by Ascending (objects (filtered_logs (channel self))))
    else closet_qs in
  match qs_first closet_qs with
  | Some r => Some (channel_date_url self (Some (utc_datetime (timestamp r))))
  | None => None
  end.

(** What the template gets from [get_context_data], as far as paging goes. *)
Record context := MkContext {
  message_list : list Log;
  ctx_is_current : option bool;   (* only in the HTML format *)
  ctx_prev_page : link;
  ctx_next_page : link;
  ctx_current_page : link
}.

Inductive response :=
| Redirect (u : url) (query : gmap string (list pval)) (permanent : bool)
| Rendered (ctx : context).

Definition get_context_data (self : View) : result (View * context) :=
  let queryset := view_object_list self in
  '(self, objs) ←
    (if paginate_by self =? 0 then Ok (self, qs_list queryset)
     else
       '(self, _, pg) ← paginate_queryset self queryset (paginate_by self);
       Ok (self, page_objects pg));
  Ok (self,
      MkContext objs
        (match fmt self with Html => Some (is_current self) | _ => None end)
        (prev_page self) (next_page self) (current_page self)).

Definition get (self : View) : result response :=
  '(self, d) ← set_view_date self;
  let self := set_date d self in
  let self := set_object_list (get_queryset self) self in
  if negb (allow_empty self) && negb (qs_exists (view_object_list self)) then
    match _nearby_log_url self with
    | Some u => Ok (Redirect u ∅ false)
    | None => Raise (Http404 "Empty list and 'DayLogViewer.allow_empty' is False.")
    end
  else
    '(_, ctx) ← get_context_data self;
    Ok (Rendered ctx).

(** A fresh [DayLogViewer] for a request: the class attributes of
    [LogViewer] and [DayLogViewer], the attributes [__init__] sets. *)
Definition DayLogViewer (P : Platform) (f : format) (kw : gmap string string)
    (query : gmap string (list string)) (ch : Channel) : View :=
  {| platform := P; paginate_by := 150; allow_empty := true;
     newest_first := false; fmt := f; kwargs := kw; GET := query;
     channel := ch; date := PyDate 0; view_object_list := objects [];
     next_page := LinkEmpty; prev_page := LinkEmpty; current_page := LinkEmpty;
     is_current := false; fetch_after := None |}.

(** ** django.core.cache and the store traffic of a permalink lookup *)

(** A cached permalink: [[url, params]] and the instant the entry
    expires ([None]: never). *)
Record cache_entry := MkEntry {
  ce_url : url;
  ce_params : list (string * pval);
  ce_expires : option Z
}.

Definition cache_get (now : Z) (c : gmap string cache_entry) (key : string)
  : option (url * list (string * pval)) :=
  e ← c !! key;
  match ce_expires e with
  | Some t => if t <=? now then None else Some (ce_url e, ce_params e)
  | None => Some (ce_url e, ce_params e)
  end.

(** [cache.set(key, [url, params], timeout)]; a [timeout] of [None] is
    Django's "never expire". *)
Definition cache_set (now : Z) (c : gmap string cache_entry) (key : string)
    (u : url) (params : list (string * pval)) (timeout : option Z)
  : gmap string cache_entry :=
  <[key := MkEntry u params ((fun t => now + t) <$> timeout)]> c.

(** What a lookup asks of the cache and of the message store. *)
Inductive event :=
| CacheGet (key : string)
| CacheSet (key : string) (timeout : option Z)
| PageQuery (n : Z).

(** ** SingleLogViewer *)

(** The [for n in paginator.page_range] loop of [_permalink_to_log]. *)
Fixpoint scan_pages (paginator : Paginator) (log : Log) (ns : list Z)
  : result (option Z) * list event :=
  match ns with
  | [] => (Ok None, [])
  | n :: ns' =>
      match page paginator n with
      | Raise e => (Raise e, [PageQuery n])
      | Ok pg =>
          if contains log (page_objects pg) then (Ok (Some n), [PageQuery n])
          else let '(r, t) := scan_pages paginator log ns' in (r, PageQuery n :: t)
      end
  end.

Definition cache_key (log : Log) : string :=
  "line:" +:+ pretty (pk log) +:+ ":permalink".

Definition _permalink_to_log (self : View) (log : Log) (c : gmap string cache_entry)
  : result link * gmap string cache_entry * list event :=
  let now := utc_now (platform self) in
  let key := cache_key log in
  let oparams := qd_copy (GET self) in
  match cache_get now c key with
  | Some (u, params) => (Ok (Href u (qd_update oparams params)), c, [CacheGet key])
  | None =>
      let paginator :=
        get_paginator self (view_object_list self) (paginate_by self) in
      match scan_pages paginator log (page_range paginator) with
      | (Ok (Some n), t) =>
          let params := [("msg", PInt (pk log)); ("page", PInt n)] in
          let u := channel_date_url self None in
          (Ok (Href u (qd_update oparams params)),
           cache_set now c key u params None,
           CacheGet key :: t ++ [CacheSet key None])
      | (Ok None, t) => (Raise (Http404 ""), c, CacheGet key :: t)
      | (Raise e, t) => (Raise e, c, CacheGet key :: t)
      end
  end.

(** [get_object_or_404(Log.objects, pk=s)] *)
Definition get_object_or_404 (self : View) (Log_objects : list Log) (s : string)
  : result Log :=
  n ← int self s;
  match List.find (fun r => pk r =? n) Log_objects with
  | Some r => Ok r
  | None => Raise (Http404 "No Log matches the given query.")
  end.

Definition SingleLogViewer_get (self : View) (Log_objects : list Log)
    (c : gmap string cache_entry)
  : result response * gmap string cache_entry * list event :=
  match kwargs self !! "msg_pk" with
  | None => (Raise (KeyError "msg_pk"), c, [])
  | Some s =>
      match get_object_or_404 self Log_objects s with
      | Raise ValueError => (Raise (Http404 ""), c, [])
      | Raise e => (Raise e, c, [])
      | Ok log =>
          let self := set_date (utc_date (timestamp log)) self in
          let self := set_object_list (get_queryset self) self in
          match _permalink_to_log self log c with
          | (Ok (Href u q), c', t) => (Ok (Redirect u q true), c', t)
          | (Ok _, c', t) => (Raise ValueError, c', t)
          | (Raise e, c', t) => (Raise e, c', t)
          end
      end
  end.

(** ** MissedLogViewer *)

Definition ascii_upper (a : Ascii.ascii) : Ascii.ascii :=
  let n := Ascii.N_of_ascii a in
  if ((97 <=? n) && (n <=? 122))%N then Ascii.ascii_of_N (n - 32) else a.

Fixpoint upper (s : string) : string :=
  match s with
  | EmptyString => EmptyString
  | String a s' => String (ascii_upper a) (upper s')
  end.

(** The [nick__iexact] and [nick__istartswith] lookups (ASCII case folding). *)
Definition iexact (pattern value : string) : bool :=
  String.eqb (upper value) (upper pattern).

Definition istartswith (pattern value : string) : bool :=
  String.prefix (upper pattern) (upper value).

(** [Q(nick__iexact=nick) | Q(nick__istartswith=f"{nick}|") | Q(nick__iexact=f"{nick}_")] *)
Definition nick_q (n : string) (r : Log) : bool :=
  iexact n (nick r) || istartswith (n +:+ "|") (nick r) || iexact (n +:+ "_") (nick r).

Definition command_is (c : string) (r : Log) : bool := String.eqb (command r) c.

(** The two filters of [get_queryset]: the nick rule with QUIT or PART,
    and the nick rule with JOIN after the exit. *)
Definition exit_q (n : string) (r : Log) : bool :=
  nick_q n r && (command_is "QUIT" r || command_is "PART" r).

Definition join_q (n : string) (t : Z) (r : Log) : bool :=
  nick_q n r && command_is "JOIN" r && timestamp__gt t r.

Definition last_exit_qs (n : string) (queryset : QuerySet) : QuerySet :=
  order_by Descending (qs_filter (exit_q n) queryset).

Definition last_join_qs (n : string) (exit_ts : Z) (queryset : QuerySet) : QuerySet :=
  order_by Ascending (qs_filter (join_q n exit_ts) queryset).

(** [MissedLogViewer.get_queryset].  The source declares it with
    [@property]; this is the getter: the queryset it returns and the
    [fetch_after] attribute it sets. *)
Definition Missed_get_queryset (self : View) : result (View * QuerySet) :=
  let queryset := get_ordered_queryset self (objects (log_set (channel self))) in
  match kwargs self !! "nick" with
  | None => Raise (KeyError "nick")
  | Some n =>
      match qs_first (last_exit_qs n queryset) with
      | None => Raise (Http404 "User hasn't left room")
      | Some last_exit =>
          let date_filter :=
            match qs_first (last_join_qs n (timestamp last_exit) queryset) with
            | Some last_join =>
                timestamp__range (timestamp last_exit) (timestamp last_join)
            | None => timestamp__gte (timestamp last_exit)
            end in
          let self := set_fetch_after (timestamp last_exit - 1 * US_PER_MS) self in
          Ok (self, qs_filter date_filter queryset)
      end
  end.

(** A fresh [MissedLogViewer]. *)
Definition MissedLogViewer (P : Platform) (f : format) (kw : gmap string string)
    (query : gmap string (list string)) (ch : Channel) : View :=
  {| platform := P; paginate_by := 150; allow_empty := true;
     newest_first := false; fmt := f; kwargs := kw; GET := query;
     channel := ch; date := PyDate 0; view_object_list := objects [];
     next_page := LinkEmpty; prev_page := LinkEmpty; current_page := LinkEmpty;
     is_current := false; fetch_after := None |}.

(** ** Notions the statements below are phrased in *)

(** Page count of a day, as the navigation rules use it:
    [ceil(total / page_size)] over the day's window. *)
Definition day_count (self : View) (d : pytime) : Z :=
  qs_count (_date_query_set self d).

Definition pageCount (self : View) (d : pytime) : Z :=
  ceil_div (day_count self d) (paginate_by self).




(** The same request served at another time. *)
Definition at_time (now : Z) (self : View) : View :=
  MkView (MkPlatform (py_int (platform self)) (pytz_timezone (platform self)) now)
    (paginate_by self) (allow_empty self) (newest_first self) (fmt self)
    (kwargs self) (GET self) (channel self) (date self) (view_object_list self)
    (next_page self) (prev_page self) (current_page self) (is_current self)
    (fetch_after self).

(** The same request with every zone name resolving to UTC. *)
Definition in_utc (self : View) : View :=
  MkView (MkPlatform (py_int (platform self)) (fun _ => Some UTC)
                     (utc_now (platform self)))
    (paginate_by self) (allow_empty self) (newest_first self) (fmt self)
    (kwargs self) (GET self) (channel self) (date self) (view_object_list self)
    (next_page self) (prev_page self) (current_page self) (is_current self)
    (fetch_after self).

(** [in_utc] on the view a method hands back. *)
Definition in_utc2 {A} (r : result (View * A)) : result (View * A) :=
  match r with
  | Ok (v, a) => Ok (in_utc v, a)
  | Raise e => Raise e
  end.

Definition in_utc3 {A B} (r : result (View * A * B)) : result (View * A * B) :=
  match r with
  | Ok (v, a, b) => Ok (in_utc v, a, b)
  | Raise e => Raise e
  end.

(** A zone whose offsets Python accepts: [utcoffset()] must lie strictly
    within one day of UTC. *)
Definition valid_zone (tz : tzinfo) : Prop :=
  - US_PER_DAY < tz_unlocalized tz < US_PER_DAY
  /\ forall t, - US_PER_DAY < tz_utcoffset tz t < US_PER_DAY.

(** A day of the calendar that has a day before it and a day after it. *)
Definition inner_day (day : Z) : Prop := MIN_DAY < day < MAX_DAY.

(** The request stays within what [datetime] can hold.  Python raises
    OverflowError where a [datetime] would leave the years 1..9999
    ([start + timedelta(days=1)] on 9999-12-31, [astimezone] next to either
    end), and [add_days] goes on counting; the statements about a whole
    request that could run into it take this as their hypothesis.  The
    zone of the request is valid, the date [d] of the view and the local
    day of every visible message are inner days, and the clock reads a
    day more than two weeks after the first one (the timeline steps back
    from today by up to two weeks). *)
Definition within_datetime_range (self : View) (d : pytime) : Prop :=
  valid_zone (request_timezone self)
  /\ inner_day (calendar_day d)
  /\ MIN_DAY + 14 < calendar_day (utc_date (utc_now (platform self))) <= MAX_DAY
  /\ forall r, In r (filtered_logs (channel self)) ->
       inner_day (calendar_day (_local_date_at_midnight self (timestamp r))).

(** Two characters that are equal, or the upper and the lower case of one
    ASCII letter (codes 65..90 and 97..122). *)
Definition same_letter (a b : Ascii.ascii) : Prop :=
  let x := Ascii.N_of_ascii a in
  let y := Ascii.N_of_ascii b in
  (x = y \/ (65 <= x <= 90 /\ y = x + 32) \/ (65 <= y <= 90 /\ x = y + 32))%N.

(** Two strings that are equal when the case of letters is ignored. *)
Inductive same_ignoring_case : string -> string -> Prop :=
| sic_empty : same_ignoring_case EmptyString EmptyString
| sic_letter (a b : Ascii.ascii) (s t : string) :
    same_letter a b -> same_ignoring_case s t ->
    same_ignoring_case (String a s) (String b t).

(** The nick rule in words, without reference to how the lookups fold
    case: ignoring case, the stored nick is the requested one, or the
    requested one followed by an underscore, or it begins with the
    requested one followed by a pipe. *)
Definition nick_rule (requested stored : string) : Prop :=
  same_ignoring_case stored requested
  \/ same_ignoring_case stored (requested +:+ "_")
  \/ exists head rest,
       stored = head +:+ rest /\ same_ignoring_case head (requested +:+ "|").

Definition is_exit (n : string) (r : Log) : Prop :=
  nick_q n r = true /\ (command r = "QUIT" \/ command r = "PART").

Definition is_join_after (n : string) (t : Z) (r : Log) : Prop :=
  nick_q n r = true /\ command r = "JOIN" /\ t < timestamp r.

(** ** A concrete platform and channel for the worked examples *)

Definition digit_of (a : Ascii.ascii) : option Z :=
  let n := Z.of_N (Ascii.N_of_ascii a) in
  if (48 <=? n) && (n <=? 57) then Some (n - 48) else None.

Fixpoint dec_digits (acc : Z) (s : string) : option Z :=
  match s with
  | EmptyString => Some acc
  | String a s' => d ← digit_of a; dec_digits (10 * acc + d) s'
  end.

(** Unsigned decimal literals: the part of [int] the examples need. *)
Definition dec_int (s : string) : option Z :=
  match s with
  | EmptyString => None
  | _ => dec_digits 0 s
  end.

Definition HOUR : Z := 3600000000.

(** Two zones: UTC, and one two hours east of it. *)
Definition sample_timezone (zone : string) : option tzinfo :=
  if String.eqb zone "UTC" then Some UTC
  else if String.eqb zone "Etc/GMT-2" then
    Some (Tz "Etc/GMT-2" (2 * HOUR) (fun _ => 2 * HOUR))
  else None.

(** Noon of 2024-01-04 (a Thursday). *)
Definition sample_now : Z := day_of_ymd 2024 1 4 * US_PER_DAY + 12 * HOUR.

Definition sample_platform : Platform :=
  MkPlatform dec_int sample_timezone sample_now.

Definition at_ (y m d h : Z) : Z := day_of_ymd y m d * US_PER_DAY + h * HOUR.

(** The channel of the spec's scenario: three messages on 2024-01-01,
    one on 2024-01-03. *)
Definition sample_channel : Channel :=
  let rows :=
    [ MkLog 1 (at_ 2024 1 1 9) "alice" "PRIVMSG";
      MkLog 2 (at_ 2024 1 1 10) "bob" "PRIVMSG";
      MkLog 3 (at_ 2024 1 1 11) "alice" "PRIVMSG";
      MkLog 4 (at_ 2024 1 3 8) "bob" "PRIVMSG" ] in
  MkChannel rows rows.

Definition day_kwargs (y m d : string) : gmap string string :=
  <["year" := y]> (<["month" := m]> (<["day" := d]> ∅)).

(** A day view already at the point where [get] paginates. *)
Definition sample_day_view (y m d : string) (query : gmap string (list string))
  : View :=
  let v := DayLogViewer sample_platform Html (day_kwargs y m d) query sample_channel in
  match set_view_date v with
  | Ok (v, dt) => let v := set_date dt v in set_object_list (get_queryset v) v
  | Raise _ => v
  end.

(** A channel where alice quits at 10:00 and joins again at 12:00 on
    2024-01-02; bob speaks one millisecond before she leaves and once
    while she is away. *)
Definition missed_channel : Channel :=
  let rows :=
    [ MkLog 10 (at_ 2024 1 2 10 - 1 * US_PER_MS) "bob" "PRIVMSG";
      MkLog 11 (at_ 2024 1 2 10) "alice" "QUIT";
      MkLog 12 (at_ 2024 1 2 11) "bob" "PRIVMSG";
      MkLog 13 (at_ 2024 1 2 12) "Alice_" "JOIN";
      MkLog 14 (at_ 2024 1 2 13) "bob" "PRIVMSG" ] in
  MkChannel rows rows.

(** Whether page [n] of a paginator exists and holds the row. *)
Definition page_has (p : Paginator) (log : Log) (n : Z) : bool :=
  match page p n with
  | Ok pg => contains log (page_objects pg)
  | Raise _ => false
  end.

(** The same view with another [paginate_by] class attribute. *)
Definition with_paginate_by (n : Z) (v : View) : View :=
  MkView (platform v) n (allow_empty v) (newest_first v) (fmt v)
    (kwargs v) (GET v) (channel v) (date v) (view_object_list v) (next_page v)
    (prev_page v) (current_page v) (is_current v) (fetch_after v).

(** The same view with another [allow_empty] class attribute. *)
Definition with_allow_empty (b : bool) (v : View) : View :=
  MkView (platform v) (paginate_by v) b (newest_first v) (fmt v)
    (kwargs v) (GET v) (channel v) (date v) (view_object_list v) (next_page v)
    (prev_page v) (current_page v) (is_current v) (fetch_after v).

(** What [paginate_queryset] hands back for a view (the view itself when
    the page does not exist). *)
Definition paged (v : View) : View * Paginator * Page :=
  let p := get_paginator v (get_queryset v) (paginate_by v) in
  match paginate_queryset v (get_queryset v) (paginate_by v) with
  | Ok x => x
  | Raise _ => (v, p, MkPage [] 0 p)
  end.

(** ** The rest of the views *)

(** [_find_pk(pk, queryset)]: the first object, in the order the queryset
    is iterated, whose primary key is [int(pk)]; ValueError and
    StopIteration both leave [None]. *)
Definition _find_pk (P : Platform) (pk_arg : string) (queryset : QuerySet)
  : option Log :=
  match py_int P pk_arg with
  | Some n => List.find (fun obj => pk obj =? n) (qs_list queryset)
  | None => None
  end.

(** A link of [PaginatorPageLinksMixin]: the empty string, or
    [f"{request.path}?{params.urlencode()}"]. *)
Inductive path_link :=
| PathEmpty
| PathHref (path : string) (params : gmap string (list pval)).

(** [PaginatorPageLinksMixin.get_next_page_link] and its siblings, as the
    search and missed-activity views inherit them; [path] is
    [self.request.path]. *)
Definition Mixin_get_next_page_link (path : string) (self : View) (pg : Page)
  : result path_link :=
  let params := qd_copy (GET self) in
  if negb (has_next pg) then Ok PathEmpty
  else
    n ← next_page_number pg;
    Ok (PathHref path (qd_set "page" (PInt n) params)).

Definition Mixin_get_previous_page_link (path : string) (self : View) (pg : Page)
  : result path_link :=
  let params := qd_copy (GET self) in
  if negb (has_previous pg) then Ok PathEmpty
  else
    n ← previous_page_number pg;
    Ok (PathHref path (qd_set "page" (PInt n) params)).

Definition Mixin_get_current_page_link (path : string) (self : View) (pg : Page)
  : path_link :=
  let params := qd_copy (GET self) in
  PathHref path (qd_set "page" (PInt (number pg)) params).

(** The three attributes [PaginatorPageLinksMixin.paginate_queryset] sets
    ([next_page], [prev_page], [current_page]) with the paginator and the
    page it returns, for a view that does not override the link methods. *)
Definition Mixin_page_links (path : string) (self : View) (queryset : QuerySet)
    (page_size : Z)
  : result (path_link * path_link * path_link * Paginator * Page) :=
  '(paginator, pg) ← ListView_paginate_queryset self queryset page_size;
  n ← Mixin_get_next_page_link path self pg;
  p ← Mixin_get_previous_page_link path self pg;
  let c := Mixin_get_current_page_link path self pg in
  Ok (n, p, c, paginator, pg).

(** [patch_cache_control(response, public=True, max_age=...)] or
    [patch_cache_control(response, private=True)]. *)
Inductive cache_control :=
| CachePublic (max_age : Z)
| CachePrivate.

(** The headers [LogViewer.render_to_response] adds: the [Link] header
    (its entries, each a link and its [rel], joined by commas in the
    source), [X-NextPage], [X-PrevPage], and the cache policy. *)
Record response_headers := MkHeaders {
  h_Link : option (list (link * string));
  h_X_NextPage : option link;
  h_X_PrevPage : option link;
  h_cache_control : cache_control
}.

Definition render_to_response (self : View) (user_is_anonymous : bool)
    (CACHE_MIDDLEWARE_SECONDS : Z) : response_headers :=
  let next_set := truthy (next_page self) in
  let prev_set := truthy (prev_page self) in
  let has_next_page := next_set in
  let cc := if has_next_page && user_is_anonymous
            then CachePublic CACHE_MIDDLEWARE_SECONDS else CachePrivate in
  match fmt self with
  | Html =>
      let links :=
        (if next_set then [(next_page self, "next")] else [])
        ++ (if prev_set then [(prev_page self, "prev")] else []) in
      MkHeaders (Some links) None None cc
  | _ =>
      MkHeaders None
        (if next_set then Some (next_page self) else None)
        (if prev_set then Some (prev_page self) else None)
        cc
  end.

(** ** The logger plugin (botbot/apps/plugins/core/logger.py) *)

(** [re.match(pattern, text, flags=re.IGNORECASE) is not None]; [None]
    stands for [re.error] on a pattern that does not compile. *)
Definition matcher := string -> string -> option bool.

(** [should_ignore_text]: [any(...)] over the prefixes, left to right,
    stopping at the first match. *)
Fixpoint should_ignore_text (re_match : matcher) (text : string)
    (ignore_prefix : list string) : option bool :=
  match ignore_prefix with
  | [] => Some false
  | prefix :: rest =>
      match re_match prefix text with
      | None => None
      | Some true => Some true
      | Some false => should_ignore_text re_match text rest
      end
  end.

(** The value of [self.config['ignore_prefix']]: nothing, a single string,
    or a list of strings. *)
Inductive config_value :=
| CfgNone
| CfgStr (s : string)
| CfgList (l : list string).

(** The line the bot received, as far as [logit] reads it. *)
Record Line := MkLine {
  _channel_name : string;
  _channel_pk : Z;
  line_text : string;
  full_text : string;
  user : string;
  _received : Z;
  _host : string;
  _command : string;
  _raw : string
}.

(** The arguments of [Log.objects.create]. *)
Record LogRow := MkLogRow {
  row_channel_id : Z;
  row_timestamp : Z;
  row_nick : string;
  row_text : string;
  row_room : Z;
  row_host : string;
  row_command : string;
  row_raw : string
}.

(** [text[n:]] *)
Fixpoint string_drop (n : nat) (s : string) : string :=
  match n, s with
  | O, _ => s
  | S n', String _ s' => string_drop n' s'
  | S _, EmptyString => EmptyString
  end.

(** [if ignore_prefix: ... else: ignore_prefix = []] with the
    [isinstance(ignore_prefix, list)] test. *)
Definition normalize_ignore_prefix (c : config_value) : list string :=
  match c with
  | CfgNone => []
  | CfgStr s => if String.eqb s "" then [] else [s]
  | CfgList l => l
  end.

(** [text] with the prefix that /me adds removed. *)
Definition strip_action (text : string) : string :=
  if String.prefix "ACTION " text then string_drop 7 text else text.

Definition row_of_line (line : Line) : LogRow :=
  MkLogRow (_channel_pk line) (_received line) (user line) (full_text line)
    (_channel_pk line) (_host line) (_command line) (_raw line).

(** [Plugin.logit]: the table after the call ([None]: [re.error]). *)
Definition logit (re_match : matcher) (config : config_value) (line : Line)
    (table : list LogRow) : option (list LogRow) :=
  if String.prefix "#" (_channel_name line) then
    let ignore_prefix := normalize_ignore_prefix config in
    let text := strip_action (line_text line) in
    match should_ignore_text re_match text ignore_prefix with
    | None => None
    | Some true => Some table
    | Some false => Some (table ++ [row_of_line line])
    end
  else Some table.

(** A matcher for the examples: the pattern is taken literally and
    compared with the start of the text, ignoring case. *)
Definition literal_match : matcher :=
  fun pattern text => Some (String.prefix (upper pattern) (upper text)).

(** * Properties *)

(** ** Ordering of rows *)

Section Sorting.
Variable o : ordering.

Lemma before_total a b : before o a b = false -> before o b a = true.
Proof. destruct o; simpl; lia. Qed.

Lemma before_refl a : before o a a = true.
Proof. destruct o; simpl; lia. Qed.

Lemma before_trans a b c :
  before o a b = true -> before o b c = true -> before o a c = true.
Proof. destruct o; simpl; lia. Qed.

Lemma insert_row_In x a l : In x (insert_row o a l) <-> x = a \/ In x l.
Proof.
  induction l as [|y l IH]; simpl.
  - intuition.
  - destruct (before o a y); simpl; rewrite ?IH; intuition.
Qed.

Lemma sort_rows_In x l : In x (sort_rows o l) <-> In x l.
Proof.
  induction l as [|y l IH]; simpl; [tauto|].
  rewrite insert_row_In, IH. intuition.
Qed.

Lemma insert_row_length a l : length (insert_row o a l) = S (length l).
Proof.
  induction l as [|y l IH]; simpl; [reflexivity|].
  destruct (before o a y); simpl; congruence.
Qed.

Lemma sort_rows_length l : length (sort_rows o l) = length l.
Proof.
  induction l as [|y l IH]; simpl; [reflexivity|].
  rewrite insert_row_length. congruence.
Qed.

Lemma head_insert_row a l :
  head (insert_row o a l)
  = Some (match head l with
          | Some y => if before o a y then a else y
          | None => a
          end).
Proof. destruct l as [|y l]; simpl; [reflexivity|]. destruct (before o a y); reflexivity. Qed.

(** The first row of a sorted list precedes every row. *)
Lemma head_sort_min l x :
  head (sort_rows o l) = Some x ->
  In x l /\ forall y, In y l -> before o x y = true.
Proof.
  revert x. induction l as [|a l IH]; intros x; simpl; [discriminate|].
  rewrite head_insert_row.
  destruct (head (sort_rows o l)) as [h|] eqn:Hh.
  - destruct (IH h eq_refl) as [Hin Hmin].
    destruct (before o a h) eqn:Hb; intros [= <-].
    + split; [now left|]. intros y [<-|Hy].
      * apply before_refl.
      * eapply before_trans; eauto.
    + split; [now right|]. intros y [<-|Hy]; [now apply before_total|auto].
  - intros [= <-]. split; [now left|].
    assert (l = []) as ->.
    { destruct l as [|b l]; [reflexivity|]. exfalso.
      assert (Hl : length (sort_rows o (b :: l)) = S (length l))
        by (rewrite sort_rows_length; reflexivity).
      destruct (sort_rows o (b :: l)); simpl in *; congruence. }
    intros y [<-|[]]. apply before_refl.
Qed.

Lemma head_sort_None l : head (sort_rows o l) = None -> l = [].
Proof.
  intros H. destruct l as [|a l]; [reflexivity|]. exfalso.
  assert (Hl : length (sort_rows o (a :: l)) = S (length l))
    by (rewrite sort_rows_length; reflexivity).
  destruct (sort_rows o (a :: l)); simpl in *; congruence.
Qed.

End Sorting.

(** ** First row of a filtered, ordered query *)

Lemma qs_first_Some p rows o r :
  qs_first (MkQS (List.filter p rows) o) = Some r ->
  In r rows /\ p r = true /\
  forall r', In r' rows -> p r' = true -> before o r r' = true.
Proof.
  unfold qs_first, qs_list; simpl. intros H.
  apply head_sort_min in H. destruct H as [Hin Hmin].
  apply filter_In in Hin. destruct Hin as [Hin Hp].
  repeat split; auto. intros r' Hr' Hp'. apply Hmin, filter_In. auto.
Qed.

Lemma qs_first_None p rows o r :
  qs_first (MkQS (List.filter p rows) o) = None -> In r rows -> p r = false.
Proof.
  unfold qs_first, qs_list; simpl. intros H Hin.
  apply head_sort_None in H.
  destruct (p r) eqn:Hp; [|reflexivity].
  assert (Hf : In r (List.filter p rows)) by (apply filter_In; auto).
  rewrite H in Hf. destruct Hf.
Qed.

Lemma qs_first_is_Some p rows o r :
  In r rows -> p r = true -> exists r0, qs_first (MkQS (List.filter p rows) o) = Some r0.
Proof.
  intros Hin Hp.
  destruct (qs_first (MkQS (List.filter p rows) o)) as [r0|] eqn:E; [eauto|].
  rewrite (qs_first_None _ _ _ _ E Hin) in Hp. discriminate.
Qed.

(** ** The timeline context *)

Lemma pop_last_month_ok {K} (timeline : list (K * list Z)) k months d :
  last timeline = Some (k, months) ->
  last months = Some d ->
  pop_last_month timeline = Ok (removelast timeline, d).
Proof. unfold pop_last_month. intros -> ->. reflexivity. Qed.

Lemma timeline_context_inv {K} now (timeline : list (K * list Z)) rest tw lw real adj :
  _timeline_context now timeline = Ok (Vars rest tw lw real adj) ->
  tw = now / US_PER_DAY - weekday (now / US_PER_DAY)
  /\ lw = tw - 7
  /\ adj = adjust_last_month tw lw real.
Proof.
  unfold _timeline_context. destruct timeline as [|e tl]; [discriminate|].
  destruct (pop_last_month (e :: tl)) as [[tl' d]|err]; simpl; [|discriminate].
  intros [= <- <- <- <- <-]. auto.
Qed.

(** C6: for a non-empty catalog the most recent month's date is replaced
    by the day before last week's start when it is on or after that start
    (boundary included), else by the day before this week's start when it
    is on or after this week's start, else it is kept; an empty catalog
    gives the empty context. *)
Theorem timeline_adjustment {K} (now : Z) (timeline : list (K * list Z))
    (k : K) (months : list Z) (d : Z) :
  last timeline = Some (k, months) ->
  last months = Some d ->
  let today := now / US_PER_DAY in
  let this_week_start := today - weekday today in
  let last_week_start := this_week_start - 7 in
  (exists adjusted,
      _timeline_context now timeline
      = Ok (Vars (removelast timeline) this_week_start last_week_start d adjusted)
      /\ (last_week_start <= d -> adjusted = last_week_start - 1)
      /\ (d < last_week_start -> this_week_start <= d ->
          adjusted = this_week_start - 1)
      /\ (d < last_week_start -> d < this_week_start -> adjusted = d))
  /\ _timeline_context now (@nil (K * list Z)) = Ok NoVars.
Proof.
  intros Hlast Hmonths today tw lw. split; [|reflexivity].
  exists (adjust_last_month tw lw d). split.
  - unfold _timeline_context.
    destruct timeline as [|e tl]; [discriminate|].
    rewrite (pop_last_month_ok _ _ _ _ Hlast Hmonths). reflexivity.
  - unfold adjust_last_month.
    destruct (Z.leb_spec lw d), (Z.leb_spec tw d); repeat split; intros; lia.
Qed.

Lemma timeline_adjustment_witness :
  let catalog := [(2023, [day_of_ymd 2023 11 1; day_of_ymd 2023 12 1]);
                  (2024, [day_of_ymd 2024 1 1])] in
  (exists adjusted,
      _timeline_context sample_now catalog
      = Ok (Vars (removelast catalog) (day_of_ymd 2024 1 1) (day_of_ymd 2023 12 25)
                 (day_of_ymd 2024 1 1) adjusted)
      /\ (day_of_ymd 2023 12 25 <= day_of_ymd 2024 1 1 ->
          adjusted = day_of_ymd 2023 12 25 - 1)
      /\ (day_of_ymd 2024 1 1 < day_of_ymd 2023 12 25 ->
          day_of_ymd 2024 1 1 <= day_of_ymd 2024 1 1 ->
          adjusted = day_of_ymd 2024 1 1 - 1)
      /\ (day_of_ymd 2024 1 1 < day_of_ymd 2023 12 25 ->
          day_of_ymd 2024 1 1 < day_of_ymd 2024 1 1 ->
          adjusted = day_of_ymd 2024 1 1))
  /\ _timeline_context sample_now (@nil (Z * list Z)) = Ok NoVars.
Proof.
  exact (timeline_adjustment sample_now
           [(2023, [day_of_ymd 2023 11 1; day_of_ymd 2023 12 1]);
            (2024, [day_of_ymd 2024 1 1])]
           2024 [day_of_ymd 2024 1 1] (day_of_ymd 2024 1 1) eq_refl eq_refl).
Defined.

(** C9: last week's start is this week's start minus seven days, so a
    date on or after this week's start is already caught by the first
    test: the second adjustment never applies, and the adjusted date is
    either the day before last week's start or the date itself. *)
Theorem timeline_second_branch_unreachable {K} (now : Z)
    (timeline rest : list (K * list Z)) (this_week last_week real adjusted : Z) :
  _timeline_context now timeline = Ok (Vars rest this_week last_week real adjusted) ->
  last_week = this_week - 7
  /\ ~ (real < last_week /\ this_week <= real)
  /\ (adjusted = last_week - 1 \/ adjusted = real).
Proof.
  intros H. apply timeline_context_inv in H. destruct H as (_ & Hlw & Hadj).
  split; [exact Hlw|]. split; [lia|].
  subst adjusted. unfold adjust_last_month.
  destruct (Z.leb_spec last_week real); [now left|].
  destruct (Z.leb_spec this_week real); [lia|now right].
Qed.

Lemma timeline_second_branch_unreachable_witness :
  day_of_ymd 2023 12 25 = day_of_ymd 2024 1 1 - 7
  /\ ~ (day_of_ymd 2024 1 2 < day_of_ymd 2023 12 25
        /\ day_of_ymd 2024 1 1 <= day_of_ymd 2024 1 2)
  /\ (day_of_ymd 2023 12 24 = day_of_ymd 2023 12 25 - 1
      \/ day_of_ymd 2023 12 24 = day_of_ymd 2024 1 2).
Proof.
  exact (timeline_second_branch_unreachable sample_now
           [(2024, [day_of_ymd 2024 1 2])] [] _ _ _ _ eq_refl).
Defined.

(** ** Nick matching *)

Lemma append_cons (a : Ascii.ascii) (s t : string) :
  String a s +:+ t = String a (s +:+ t).
Proof. reflexivity. Qed.

Lemma append_nil (t : string) : EmptyString +:+ t = t.
Proof. reflexivity. Qed.

Lemma prefix_iff (p s : string) :
  String.prefix p s = true <-> exists rest, s = p +:+ rest.
Proof.
  revert s. induction p as [|a p IH]; intros s.
  - split; [eauto|]. intros _. destruct s; reflexivity.
  - destruct s as [|b s]; simpl.
    + split; [discriminate|]. intros [rest H]. discriminate.
    + destruct (Ascii.ascii_dec a b) as [->|Hne].
      * rewrite IH. split; intros [rest H]; exists rest;
          rewrite append_cons in *; congruence.
      * split; [discriminate|]. intros [rest H].
        rewrite append_cons in H. congruence.
Qed.

Lemma upper_app (a b : string) : upper (a +:+ b) = upper a +:+ upper b.
Proof.
  induction a as [|c a IH]; [reflexivity|].
  rewrite append_cons. simpl. rewrite IH, append_cons. reflexivity.
Qed.

Lemma append_assoc (a b c : string) : (a +:+ b) +:+ c = a +:+ (b +:+ c).
Proof.
  induction a as [|x a IH]; [reflexivity|].
  rewrite !append_cons, IH. reflexivity.
Qed.

Lemma N_of_ascii_upper (a : Ascii.ascii) :
  let x := Ascii.N_of_ascii a in
  Ascii.N_of_ascii (ascii_upper a)
  = (if (97 <=? x) && (x <=? 122) then x - 32 else x)%N.
Proof.
  unfold ascii_upper. cbv zeta.
  destruct ((97 <=? Ascii.N_of_ascii a)%N && (Ascii.N_of_ascii a <=? 122)%N) eqn:E;
    [|reflexivity].
  apply Ascii.N_ascii_embedding.
  apply andb_true_iff in E. destruct E as [_ E]. apply N.leb_le in E. lia.
Qed.

Lemma N_of_ascii_inj (a b : Ascii.ascii) :
  Ascii.N_of_ascii a = Ascii.N_of_ascii b -> a = b.
Proof.
  intros H. rewrite <- (Ascii.ascii_N_embedding a), <- (Ascii.ascii_N_embedding b).
  rewrite H. reflexivity.
Qed.

Lemma ascii_upper_eq_iff (a b : Ascii.ascii) :
  ascii_upper a = ascii_upper b <-> same_letter a b.
Proof.
  unfold same_letter. cbv zeta. split.
  - intros H. apply (f_equal Ascii.N_of_ascii) in H.
    rewrite !N_of_ascii_upper in H. cbv zeta in H.
    destruct (N.leb_spec 97 (Ascii.N_of_ascii a)), (N.leb_spec (Ascii.N_of_ascii a) 122),
      (N.leb_spec 97 (Ascii.N_of_ascii b)), (N.leb_spec (Ascii.N_of_ascii b) 122);
      simpl in H; lia.
  - intros H. apply N_of_ascii_inj. rewrite !N_of_ascii_upper. cbv zeta.
    destruct (N.leb_spec 97 (Ascii.N_of_ascii a)), (N.leb_spec (Ascii.N_of_ascii a) 122),
      (N.leb_spec 97 (Ascii.N_of_ascii b)), (N.leb_spec (Ascii.N_of_ascii b) 122);
      simpl; lia.
Qed.

Lemma upper_eq_iff (s t : string) :
  upper s = upper t <-> same_ignoring_case s t.
Proof.
  split.
  - revert t. induction s as [|a s IH]; intros [|b t] H; simpl in H; try discriminate.
    + constructor.
    + injection H as Ha Hs. constructor; [apply ascii_upper_eq_iff; exact Ha|auto].
  - induction 1 as [|a b s t Hab _ IH]; [reflexivity|].
    simpl. apply ascii_upper_eq_iff in Hab. congruence.
Qed.

Lemma upper_split (s u rest' : string) :
  upper s = u +:+ rest' ->
  exists head rest, s = head +:+ rest /\ upper head = u.
Proof.
  revert s. induction u as [|c u IH]; intros s H.
  - exists EmptyString, s. split; reflexivity.
  - destruct s as [|a s]; [discriminate|].
    rewrite append_cons in H. simpl in H. injection H as Ha Hs.
    destruct (IH s Hs) as (head & rest & -> & Hh).
    exists (String a head), rest. split; [reflexivity|]. simpl. congruence.
Qed.

Lemma istartswith_iff (p s : string) :
  istartswith p s = true <->
  exists head rest, s = head +:+ rest /\ same_ignoring_case head p.
Proof.
  unfold istartswith. rewrite prefix_iff. split.
  - intros [rest' H]. destruct (upper_split _ _ _ H) as (head & rest & -> & Hh).
    exists head, rest. split; [reflexivity|]. apply upper_eq_iff. exact Hh.
  - intros (head & rest & -> & Hh). apply upper_eq_iff in Hh.
    exists (upper rest). rewrite upper_app, Hh. reflexivity.
Qed.

Lemma nick_q_rule (n : string) (r : Log) :
  nick_q n r = true <-> nick_rule n (nick r).
Proof.
  unfold nick_q, nick_rule, iexact.
  rewrite !orb_true_iff, !String.eqb_eq, istartswith_iff, !upper_eq_iff. tauto.
Qed.

Lemma same_ignoring_case_refl (s : string) : same_ignoring_case s s.
Proof. apply upper_eq_iff. reflexivity. Qed.

Lemma command_is_iff (c : string) (r : Log) :
  command_is c r = true <-> command r = c.
Proof. unfold command_is. apply String.eqb_eq. Qed.

(** C10: in both lookups of the missed-activity view a stored nick is
    accepted exactly when, ignoring the case of letters, it is the
    requested nick, the requested nick followed by an underscore, or
    begins with the requested nick and a pipe.  For "alice": ALICE, Alice_
    and aLiCe|away are accepted, alicia and alice__ are not. *)
Theorem missed_nick_matching (n : string) (t : Z) (queryset : QuerySet) (r : Log) :
  (In r (qs_rows (last_exit_qs n queryset)) <->
     In r (qs_rows queryset) /\ nick_rule n (nick r)
     /\ (command r = "QUIT" \/ command r = "PART"))
  /\ (In r (qs_rows (last_join_qs n t queryset)) <->
        In r (qs_rows queryset) /\ nick_rule n (nick r)
        /\ command r = "JOIN" /\ t < timestamp r)
  /\ (forall rest,
        nick_rule n n /\ nick_rule n (n +:+ "_")
        /\ nick_rule n (n +:+ "|" +:+ rest))
  /\ (nick_q "alice" (MkLog 1 0 "ALICE" "QUIT") = true
      /\ nick_q "alice" (MkLog 2 0 "Alice_" "PART") = true
      /\ nick_q "alice" (MkLog 3 0 "aLiCe|away" "JOIN") = true
      /\ nick_q "alice" (MkLog 4 0 "alicia" "QUIT") = false
      /\ nick_q "alice" (MkLog 5 0 "alice__" "QUIT") = false).
Proof.
  split; [|split; [|split]].
  - unfold last_exit_qs, exit_q; simpl.
    rewrite filter_In, andb_true_iff, orb_true_iff.
    rewrite nick_q_rule, !command_is_iff. tauto.
  - unfold last_join_qs, join_q; simpl. rewrite filter_In, !andb_true_iff.
    rewrite nick_q_rule, command_is_iff. unfold timestamp__gt.
    rewrite Z.ltb_lt. tauto.
  - intros rest. unfold nick_rule. split; [left; apply same_ignoring_case_refl|].
    split; [right; left; apply same_ignoring_case_refl|].
    right; right. exists (n +:+ "|"), rest. split.
    + rewrite append_assoc. reflexivity.
    + apply same_ignoring_case_refl.
  - vm_compute. repeat split.
Qed.

(** ** The view date and the request time zone *)

Lemma date_fields_present (self : View) :
  forallb (fun field => has_key field (kwargs self)) ["year"; "month"; "day"]
  = has_key "year" (kwargs self) && has_key "month" (kwargs self)
    && has_key "day" (kwargs self).
Proof. simpl. rewrite andb_true_r, andb_assoc. reflexivity. Qed.

Lemma set_view_date_dateless (self : View) :
  kwargs self !! "year" = None \/ kwargs self !! "month" = None
  \/ kwargs self !! "day" = None ->
  set_view_date self
  = Ok (set_kwargs (<["page" := "last"]> (kwargs self)) self,
        utc_date (utc_now (platform self))).
Proof.
  intros H. unfold set_view_date. rewrite date_fields_present. unfold has_key.
  destruct H as [-> | [-> | ->]]; simpl; rewrite ?andb_false_r; reflexivity.
Qed.

Lemma set_view_date_dated (self : View) (ys ms ds : string) :
  kwargs self !! "year" = Some ys ->
  kwargs self !! "month" = Some ms ->
  kwargs self !! "day" = Some ds ->
  set_view_date self
  = match (y ← int self ys; m ← int self ms; d ← int self ds;
           datetime_ymd y m d (request_timezone self)) with
    | Ok d => Ok (self, d)
    | Raise ValueError => Raise (Http404 "Invalid date.")
    | Raise e => Raise e
    end.
Proof.
  intros Hy Hm Hd. unfold set_view_date. rewrite date_fields_present.
  unfold has_key. rewrite Hy, Hm, Hd. reflexivity.
Qed.

(** C7, as the code has it: when all three of year, month and day are
    supplied and one of them is not an integer, or they are integers (in
    the range of a C int) that name no calendar date, the request fails
    with "Invalid date."; when one of them is missing the request does not
    fail: the view shows today's date (UTC) and asks for the last page. *)
Theorem view_date_validation (self : View) :
  (kwargs self !! "year" = None \/ kwargs self !! "month" = None
   \/ kwargs self !! "day" = None ->
   set_view_date self
   = Ok (set_kwargs (<["page" := "last"]> (kwargs self)) self,
         utc_date (utc_now (platform self))))
  /\ (forall ys ms ds,
        kwargs self !! "year" = Some ys ->
        kwargs self !! "month" = Some ms ->
        kwargs self !! "day" = Some ds ->
        (py_int (platform self) ys = None \/ py_int (platform self) ms = None
         \/ py_int (platform self) ds = None ->
         set_view_date self = Raise (Http404 "Invalid date."))
        /\ (forall y m d,
              py_int (platform self) ys = Some y ->
              py_int (platform self) ms = Some m ->
              py_int (platform self) ds = Some d ->
              fits_int y && fits_int m && fits_int d = true ->
              check_date_fields y m d = false ->
              set_view_date self = Raise (Http404 "Invalid date."))).
Proof.
  split; [apply set_view_date_dateless|].
  intros ys ms ds Hy Hm Hd.
  rewrite (set_view_date_dated self ys ms ds Hy Hm Hd). unfold int. split.
  - intros H.
    destruct (py_int (platform self) ys) as [y|]; [|reflexivity].
    destruct (py_int (platform self) ms) as [m|]; [|reflexivity].
    destruct (py_int (platform self) ds) as [d|]; [|reflexivity].
    destruct H as [H | [H | H]]; discriminate.
  - intros y m d -> -> -> Hfit Hbad. simpl.
    unfold datetime_ymd. rewrite Hfit, Hbad. reflexivity.
Qed.

(** The three cases of C7 on concrete requests: a non-integer month, the
    30th of February, and a request that names no day. *)
Example invalid_date_examples :
  set_view_date (DayLogViewer sample_platform Html (day_kwargs "2024" "Jan" "02")
                   ∅ sample_channel)
  = Raise (Http404 "Invalid date.")
  /\ set_view_date (DayLogViewer sample_platform Html (day_kwargs "2024" "02" "30")
                      ∅ sample_channel)
     = Raise (Http404 "Invalid date.")
  /\ set_view_date (DayLogViewer sample_platform Html (day_kwargs "2024" "02" "29")
                      ∅ sample_channel)
     = Ok (DayLogViewer sample_platform Html (day_kwargs "2024" "02" "29")
             ∅ sample_channel,
           PyDateTime (day_of_ymd 2024 2 29) 0 0).
Proof. vm_compute. repeat split. Qed.

(** C7 as stated fails: a request that supplies only the year and the
    month is not rejected. *)
Lemma partial_date_is_accepted :
  let kw : gmap string string := <["year" := "2024"]> (<["month" := "01"]> ∅) in
  let v := DayLogViewer sample_platform Html kw ∅ sample_channel in
  kw !! "day" = None
  /\ set_view_date v <> Raise (Http404 "Invalid date.")
  /\ set_view_date v
     = Ok (set_kwargs (<["page" := "last"]> kw) v, PyDate (day_of_ymd 2024 1 4)).
Proof.
  split; [reflexivity|].
  assert (E : set_view_date
                (DayLogViewer sample_platform Html
                   (<["year" := "2024"]> (<["month" := "01"]> ∅)) ∅ sample_channel)
              = Ok (set_kwargs
                      (<["page" := "last"]> (<["year" := "2024"]> (<["month" := "01"]> ∅)))
                      (DayLogViewer sample_platform Html
                         (<["year" := "2024"]> (<["month" := "01"]> ∅)) ∅ sample_channel),
                    PyDate (day_of_ymd 2024 1 4))).
  { vm_compute. reflexivity. }
  split; [|exact E]. rewrite E. discriminate.
Qed.


(** What the day view computes depends on the zone lookup only through
    [request_timezone]. *)
Section UnknownZone.
Variable self : View.
Hypothesis fallback : request_timezone self = UTC.

Lemma local_midnight_in_utc ts :
  _local_date_at_midnight (in_utc self) ts = _local_date_at_midnight self ts.
Proof. unfold _local_date_at_midnight. rewrite fallback. reflexivity. Qed.

Lemma previous_date_in_utc : _get_previous_date (in_utc self) = _get_previous_date self.
Proof.
  unfold _get_previous_date.
  change (date (in_utc self)) with (date self).
  change (_get_base_queryset (in_utc self)) with (_get_base_queryset self).
  destruct (qs_first _); [rewrite local_midnight_in_utc|]; reflexivity.
Qed.

Lemma next_date_in_utc : _get_next_date (in_utc self) = _get_next_date self.
Proof.
  unfold _get_next_date.
  change (date (in_utc self)) with (date self).
  change (_get_base_queryset (in_utc self)) with (_get_base_queryset self).
  destruct (qs_first _); [rewrite local_midnight_in_utc|]; reflexivity.
Qed.

Lemma previous_link_in_utc pg :
  get_previous_page_link (in_utc self) pg = get_previous_page_link self pg.
Proof. unfold get_previous_page_link. rewrite previous_date_in_utc. reflexivity. Qed.

Lemma next_link_in_utc pg :
  get_next_page_link (in_utc self) pg = get_next_page_link self pg.
Proof. unfold get_next_page_link. rewrite next_date_in_utc. reflexivity. Qed.

Lemma paginate_in_utc qs n :
  paginate_queryset (in_utc self) qs n = in_utc3 (paginate_queryset self qs n).
Proof.
  unfold paginate_queryset, Mixin_paginate_queryset.
  change (ListView_paginate_queryset (in_utc self) qs n)
    with (ListView_paginate_queryset self qs n).
  destruct (ListView_paginate_queryset self qs n) as [[p pg]|e]; [|reflexivity].
  simpl. rewrite next_link_in_utc, previous_link_in_utc.
  destruct (get_next_page_link self pg) as [nl|e]; [|reflexivity]. simpl.
  destruct (get_previous_page_link self pg) as [pl|e]; [|reflexivity]. simpl.
  destruct nl; reflexivity.
Qed.

Lemma context_in_utc :
  get_context_data (in_utc self) = in_utc2 (get_context_data self).
Proof.
  unfold get_context_data.
  change (paginate_by (in_utc self)) with (paginate_by self).
  change (view_object_list (in_utc self)) with (view_object_list self).
  destruct (paginate_by self =? 0); [reflexivity|].
  rewrite paginate_in_utc.
  destruct (paginate_queryset self _ _) as [[[v p] pg]|e]; reflexivity.
Qed.

Lemma set_view_date_in_utc :
  set_view_date (in_utc self) = in_utc2 (set_view_date self).
Proof.
  unfold set_view_date.
  change (kwargs (in_utc self)) with (kwargs self).
  destruct (forallb _ _); [|reflexivity].
  change (request_timezone (in_utc self)) with UTC. rewrite fallback.
  unfold int. change (py_int (platform (in_utc self))) with (py_int (platform self)).
  destruct (mbind _ _) as [d|[]]; reflexivity.
Qed.

End UnknownZone.

Lemma set_view_date_keeps_tz self v d :
  set_view_date self = Ok (v, d) -> request_timezone v = request_timezone self.
Proof.
  unfold set_view_date. destruct (forallb _ _).
  - destruct (_ ≫= _) as [x|[]]; intros [= <- <-] || discriminate. reflexivity.
  - intros [= <- <-]. reflexivity.
Qed.

Lemma get_in_utc self : request_timezone self = UTC -> get self = get (in_utc self).
Proof.
  intros H. unfold get. rewrite (set_view_date_in_utc self H).
  destruct (set_view_date self) as [[v d]|e] eqn:E; [|reflexivity].
  simpl. assert (Hv : request_timezone v = UTC).
  { rewrite (set_view_date_keeps_tz _ _ _ E). exact H. }
  set (w := set_object_list (get_queryset (set_date d v)) (set_date d v)).
  change (set_object_list (get_queryset (set_date d (in_utc v))) (set_date d (in_utc v)))
    with (in_utc w).
  change (get_queryset (set_date d (in_utc v))) with (get_queryset (set_date d v)).
  destruct (negb _ && negb _); [reflexivity|].
  rewrite (context_in_utc w Hv).
  destruct (get_context_data w) as [[v' c]|e]; reflexivity.
Qed.

(** C8: a [tz] parameter that names no zone raises nothing: the request
    time zone is UTC, local midnights are UTC midnights, and the day view
    answers exactly as it does when the zone resolves to UTC. *)
Theorem unknown_timezone_falls_back (self : View) :
  pytz_timezone (platform self) (default "" (qd_get (GET self) "tz")) = None ->
  request_timezone self = UTC
  /\ (forall ts, _local_date_at_midnight self ts = PyDateTime (ts / US_PER_DAY) 0 0)
  /\ get self = get (in_utc self).
Proof.
  intros Hnone.
  assert (Htz : request_timezone self = UTC).
  { unfold request_timezone. rewrite Hnone. reflexivity. }
  split; [exact Htz|]. split.
  - intros ts. unfold _local_date_at_midnight. rewrite Htz. simpl.
    rewrite Z.add_0_r. reflexivity.
  - apply get_in_utc, Htz.
Qed.

Lemma unknown_timezone_falls_back_witness :
  let v := DayLogViewer sample_platform Html (day_kwargs "2024" "01" "01")
             (<["tz" := ["Mars/Olympus_Mons"]]> ∅) sample_channel in
  request_timezone v = UTC
  /\ (forall ts, _local_date_at_midnight v ts = PyDateTime (ts / US_PER_DAY) 0 0)
  /\ get v = get (in_utc v).
Proof.
  exact (unknown_timezone_falls_back
           (DayLogViewer sample_platform Html (day_kwargs "2024" "01" "01")
              (<["tz" := ["Mars/Olympus_Mons"]]> ∅) sample_channel)
           eq_refl).
Defined.


(** ** Paging within a day and across days *)

Lemma instant_of_add_days n d : instant_of (add_days n d) = instant_of d + n * US_PER_DAY.
Proof. destruct d; simpl; lia. Qed.


Lemma ceil_div_pos a b : 0 < b -> 1 <= a -> 1 <= ceil_div a b.
Proof.
  intros Hb Ha. unfold ceil_div.
  apply Z.div_le_lower_bound; lia.
Qed.

Lemma validate_number_inv p n m :
  validate_number p n = Ok m ->
  m = n /\ 1 <= n /\ (n <= num_pages p \/ n = 1).
Proof.
  unfold validate_number.
  destruct (Z.ltb_spec n 1); [discriminate|].
  destruct (Z.ltb_spec (num_pages p) n).
  - destruct (Z.eqb_spec n 1); simpl; [|discriminate].
    destruct (allow_empty_first_page p); [|discriminate].
    intros [= <-]. lia.
  - intros [= <-]. lia.
Qed.

Lemma validate_number_ok p n :
  1 <= n -> n <= num_pages p -> validate_number p n = Ok n.
Proof.
  intros H1 H2. unfold validate_number.
  destruct (Z.ltb_spec n 1); [lia|].
  destruct (Z.ltb_spec (num_pages p) n); [lia|reflexivity].
Qed.

Lemma page_inv p n pg :
  page p n = Ok pg ->
  number pg = n /\ paginator pg = p /\ 1 <= n /\ (n <= num_pages p \/ n = 1).
Proof.
  unfold page. destruct (validate_number p n) as [m|e] eqn:E; simpl; [|discriminate].
  apply validate_number_inv in E. destruct E as (-> & H1 & H2).
  intros [= <-]. simpl. auto.
Qed.

Lemma ListView_paginate_inv self qs ps p pg :
  ListView_paginate_queryset self qs ps = Ok (p, pg) ->
  p = ListView_get_paginator self qs ps /\ paginator pg = p
  /\ 1 <= number pg /\ (number pg <= num_pages p \/ number pg = 1).
Proof.
  unfold ListView_paginate_queryset.
  destruct (match or_else _ _ with Some _ => _ | None => _ end) as [n|e]; simpl; [|discriminate].
  destruct (page _ n) as [pg'|[]] eqn:E; try discriminate.
  intros [= <- <-]. apply page_inv in E. destruct E as (-> & -> & H). auto.
Qed.

Lemma paginate_queryset_inv self qs ps self' p pg :
  paginate_queryset self qs ps = Ok (self', p, pg) ->
  ListView_paginate_queryset self qs ps = Ok (p, pg)
  /\ get_next_page_link self pg = Ok (next_page self')
  /\ get_previous_page_link self pg = Ok (prev_page self')
  /\ is_current self' = negb (truthy (next_page self')) || is_current self.
Proof.
  unfold paginate_queryset, Mixin_paginate_queryset.
  destruct (ListView_paginate_queryset self qs ps) as [[p0 pg0]|e]; simpl; [|discriminate].
  destruct (get_next_page_link self pg0) as [nl|e] eqn:En; simpl; [|discriminate].
  destruct (get_previous_page_link self pg0) as [pl|e] eqn:Ep; simpl; [|discriminate].
  intros [= <- <- <-]. rewrite En, Ep.
  destruct nl; simpl; repeat split; reflexivity.
Qed.


Lemma num_pages_nonempty p :
  1 <= count p -> num_pages p = ceil_div (count p) (per_page p).
Proof.
  intros H. unfold num_pages.
  destruct (Z.eqb_spec (count p) 0); [lia|]. simpl. rewrite Z.max_r by lia. reflexivity.
Qed.



Lemma local_midnight_window self ts :
  let d := _local_date_at_midnight self ts in
  instant_of d <= ts < instant_of d + US_PER_DAY.
Proof.
  unfold _local_date_at_midnight. simpl.
  set (off := tz_utcoffset (request_timezone self) ts).
  assert (Hd : 0 < US_PER_DAY) by reflexivity.
  pose proof (Z.div_mod (ts + off) US_PER_DAY ltac:(lia)) as Hdm.
  pose proof (Z.mod_pos_bound (ts + off) US_PER_DAY Hd) as Hmb.
  lia.
Qed.

Lemma day_count_pos self r d :
  In r (filtered_logs (channel self)) ->
  instant_of d <= timestamp r < instant_of d + US_PER_DAY ->
  1 <= day_count self d.
Proof.
  intros Hin Hw. unfold day_count, qs_count, _date_query_set. simpl.
  assert (Hf : In r (List.filter
            (fun r => timestamp__gte (instant_of d) r
                      && timestamp__lt (instant_of (add_days 1 d)) r)
            (filtered_logs (channel self)))).
  { apply filter_In. split; [exact Hin|].
    unfold timestamp__gte, timestamp__lt. rewrite instant_of_add_days.
    apply andb_true_iff. split; [apply Z.leb_le|apply Z.ltb_lt]; lia. }
  destruct (List.filter _ _); [destruct Hf|]. simpl. lia.
Qed.







(** The spec's scenario: from page 1 of 2024-01-01 the next link is page 1
    of 2024-01-03; from page 1 of 2024-01-03 the previous link is page 1
    of 2024-01-01 and there is no next link. *)
Example links_across_the_empty_day :
  let v1 := (paged (sample_day_view "2024" "01" "01" ∅)).1.1 in
  let v3 := (paged (sample_day_view "2024" "01" "03" ∅)).1.1 in
  next_page v1 = Href (Url "log_day" (day_of_ymd 2024 1 3)) (qd_set "page" (PInt 1) ∅)
  /\ prev_page v1 = LinkNone
  /\ is_current v1 = false
  /\ prev_page v3 = Href (Url "log_day" (day_of_ymd 2024 1 1)) (qd_set "page" (PInt 1) ∅)
  /\ next_page v3 = LinkEmpty
  /\ is_current v3 = true.
Proof. vm_compute. repeat split. Qed.


(** ** Missed activity *)

Lemma exit_q_iff n r : exit_q n r = true <-> is_exit n r.
Proof.
  unfold exit_q, is_exit.
  rewrite andb_true_iff, orb_true_iff, !command_is_iff. tauto.
Qed.

Lemma join_q_iff n t r : join_q n t r = true <-> is_join_after n t r.
Proof.
  unfold join_q, is_join_after, timestamp__gt.
  rewrite !andb_true_iff, command_is_iff, Z.ltb_lt. tauto.
Qed.

(** C5, as the code has it: with the nick's latest QUIT or PART at T1, the
    messages returned are those with T1 <= timestamp <= T2 when a JOIN
    later than T1 exists, T2 being the earliest such JOIN, and those with
    T1 <= timestamp when none exists; [fetch_after] is T1 minus one
    millisecond. *)
Theorem missed_activity_window (self : View) (n : string) :
  kwargs self !! "nick" = Some n ->
  (exists e0, In e0 (log_set (channel self)) /\ is_exit n e0) ->
  let rows := log_set (channel self) in
  exists e self' qs,
    Missed_get_queryset self = Ok (self', qs)
    /\ (In e rows /\ is_exit n e
        /\ forall e', In e' rows -> is_exit n e' -> timestamp e' <= timestamp e)
    /\ fetch_after self' = Some (timestamp e - 1000)
    /\ (forall j,
          In j rows -> is_join_after n (timestamp e) j ->
          (forall j', In j' rows -> is_join_after n (timestamp e) j' ->
                      timestamp j <= timestamp j') ->
          forall r, In r (qs_rows qs) <->
                    In r rows /\ timestamp e <= timestamp r <= timestamp j)
    /\ ((forall j, In j rows -> ~ is_join_after n (timestamp e) j) ->
        forall r, In r (qs_rows qs) <-> In r rows /\ timestamp e <= timestamp r).
Proof.
  intros Hnick (e0 & Hin0 & Hex0) rows.
  unfold Missed_get_queryset. rewrite Hnick.
  change (qs_first (last_exit_qs n _))
    with (qs_first (MkQS (List.filter (exit_q n) rows) Descending)).
  destruct (qs_first_is_Some (exit_q n) rows Descending e0 Hin0) as [e He].
  { apply exit_q_iff. exact Hex0. }
  rewrite He. apply qs_first_Some in He. destruct He as (He1 & He2 & He3).
  apply exit_q_iff in He2.
  change (qs_first (last_join_qs n (timestamp e) _))
    with (qs_first (MkQS (List.filter (join_q n (timestamp e)) rows) Ascending)).
  eexists e, _, _. split; [reflexivity|].
  split; [|split; [reflexivity|]].
  - split; [exact He1|]. split; [exact He2|].
    intros e' Hin' Hex'. apply Z.leb_le. apply (He3 e' Hin'). apply exit_q_iff. exact Hex'.
  - destruct (qs_first _) as [j0|] eqn:Hj; simpl; split.
    + apply qs_first_Some in Hj. destruct Hj as (Hj1 & Hj2 & Hj3).
      intros j Hjin Hjj Hjmin r.
      assert (timestamp j = timestamp j0) as ->.
      { apply Z.le_antisymm.
        - apply Hjmin; [exact Hj1|]. apply join_q_iff. exact Hj2.
        - apply Z.leb_le. apply (Hj3 j Hjin). apply join_q_iff. exact Hjj. }
      rewrite filter_In. unfold timestamp__range.
      rewrite andb_true_iff, !Z.leb_le. reflexivity.
    + apply qs_first_Some in Hj. destruct Hj as (Hj1 & Hj2 & _).
      intros Hno. exfalso. apply (Hno j0 Hj1). apply join_q_iff. exact Hj2.
    + intros j Hjin Hjj _. exfalso.
      pose proof (qs_first_None _ _ _ j Hj Hjin) as Hf.
      apply join_q_iff in Hjj. congruence.
    + intros _ r. rewrite filter_In. unfold timestamp__gte. rewrite Z.leb_le. reflexivity.
Qed.

Lemma missed_activity_window_witness :
  let v := MissedLogViewer sample_platform Html (<["nick" := "alice"]> ∅) ∅
             missed_channel in
  let rows := log_set (channel v) in
  exists e self' qs,
    Missed_get_queryset v = Ok (self', qs)
    /\ (In e rows /\ is_exit "alice" e
        /\ forall e', In e' rows -> is_exit "alice" e' -> timestamp e' <= timestamp e)
    /\ fetch_after self' = Some (timestamp e - 1000)
    /\ (forall j,
          In j rows -> is_join_after "alice" (timestamp e) j ->
          (forall j', In j' rows -> is_join_after "alice" (timestamp e) j' ->
                      timestamp j <= timestamp j') ->
          forall r, In r (qs_rows qs) <->
                    In r rows /\ timestamp e <= timestamp r <= timestamp j)
    /\ ((forall j, In j rows -> ~ is_join_after "alice" (timestamp e) j) ->
        forall r, In r (qs_rows qs) <-> In r rows /\ timestamp e <= timestamp r).
Proof.
  intros v.
  apply (missed_activity_window v "alice").
  - reflexivity.
  - exists (MkLog 11 (at_ 2024 1 2 10) "alice" "QUIT").
    split; [right; left; reflexivity|].
    split; [reflexivity|left; reflexivity].
Defined.

(** C5 as stated fails: the message sent one millisecond before the exit
    lies in [T1 - 1ms, T2] and is not returned; the window starts at T1. *)
Lemma missed_window_starts_at_exit :
  let v := MissedLogViewer sample_platform Html (<["nick" := "alice"]> ∅) ∅
             missed_channel in
  let T1 := at_ 2024 1 2 10 in
  let T2 := at_ 2024 1 2 12 in
  let early := MkLog 10 (T1 - 1 * US_PER_MS) "bob" "PRIVMSG" in
  exists v' qs,
    Missed_get_queryset v = Ok (v', qs)
    /\ fetch_after v' = Some (T1 - 1 * US_PER_MS)
    /\ In early (log_set missed_channel)
    /\ T1 - 1 * US_PER_MS <= timestamp early <= T2
    /\ ~ In early (qs_rows qs)
    /\ qs_rows qs = [ MkLog 11 T1 "alice" "QUIT";
                      MkLog 12 (at_ 2024 1 2 11) "bob" "PRIVMSG";
                      MkLog 13 T2 "Alice_" "JOIN" ].
Proof.
  intros v T1 T2 early.
  destruct (Missed_get_queryset v) as [[v' qs]|e] eqn:E;
    [|vm_compute in E; discriminate].
  exists v', qs. split; [reflexivity|].
  vm_compute in E. injection E as <- <-.
  split; [reflexivity|]. split; [left; reflexivity|].
  split; [vm_compute; split; discriminate|].
  split; [|reflexivity].
  vm_compute. intros [H|[H|[H|[]]]]; discriminate.
Qed.


(** ** A requested day without messages *)

Lemma set_view_date_inv self v d :
  set_view_date self = Ok (v, d) ->
  v = self \/ v = set_kwargs (<["page" := "last"]> (kwargs self)) self.
Proof.
  unfold set_view_date. destruct (forallb _ _).
  - destruct (_ ≫= _) as [x|[]]; intros [= <- <-] || discriminate. now left.
  - intros [= <- <-]. now right.
Qed.





Lemma get_unfold self v d :
  set_view_date self = Ok (v, d) ->
  get self
  = let w := set_object_list (get_queryset (set_date d v)) (set_date d v) in
    if negb (allow_empty w) && negb (qs_exists (view_object_list w)) then
      match _nearby_log_url w with
      | Some u => Ok (Redirect u ∅ false)
      | None => Raise (Http404 "Empty list and 'DayLogViewer.allow_empty' is False.")
      end
    else '(_, ctx) ← get_context_data w; Ok (Rendered ctx).
Proof. unfold get. intros ->. reflexivity. Qed.




(** The spec's scenario with [allow_empty] switched off: 2024-01-02 is
    empty and the answer is a redirect to 2024-01-01, although 2024-01-03
    has a message too. *)
Example empty_day_redirects_to_the_past :
  get (with_allow_empty false
         (DayLogViewer sample_platform Html (day_kwargs "2024" "01" "02") ∅
            sample_channel))
  = Ok (Redirect (Url "log_day" (day_of_ymd 2024 1 1)) ∅ false).
Proof. vm_compute. reflexivity. Qed.



(** ** Permalinks *)

Lemma count_length p : count p = Z.of_nat (length (qs_list (object_list p))).
Proof. unfold count, qs_count, qs_list. rewrite sort_rows_length. reflexivity. Qed.

Lemma contains_In log l : In log l -> contains log l = true.
Proof.
  intros H. unfold contains. apply existsb_exists. exists log.
  split; [exact H|apply Z.eqb_refl].
Qed.

Lemma page_valid p n :
  1 <= n <= num_pages p -> exists pg, page p n = Ok pg.
Proof.
  intros [H1 H2]. unfold page. rewrite validate_number_ok by lia. simpl. eauto.
Qed.

(** Every row of the list lies on one of the pages. *)
Lemma row_on_a_page p (i : nat) (r : Log) :
  0 < per_page p ->
  qs_list (object_list p) !! i = Some r ->
  let n := Z.of_nat i / per_page p + 1 in
  1 <= n <= num_pages p /\ page_has p r n = true.
Proof.
  intros Hpb Hi n.
  pose proof (lookup_lt_Some _ _ _ Hi) as Hlen.
  pose proof (count_length p) as Hc.
  assert (Hcnt : Z.of_nat i < count p) by lia.
  pose proof (Z.div_mod (Z.of_nat i) (per_page p) ltac:(lia)) as Hdm.
  pose proof (Z.mod_pos_bound (Z.of_nat i) (per_page p) Hpb) as Hmb.
  assert (Hq : 0 <= Z.of_nat i / per_page p) by (apply Z.div_pos; lia).
  assert (Hn : 1 <= n <= num_pages p).
  { split; [unfold n; lia|].
    rewrite num_pages_nonempty by lia. unfold ceil_div, n.
    apply Z.div_le_lower_bound; [lia|]. nia. }
  split; [exact Hn|].
  unfold page_has, page. rewrite validate_number_ok by lia. simpl.
  apply contains_In. apply list_elem_of_In.
  set (bottom := (n - 1) * per_page p).
  assert (Hb : bottom = per_page p * (Z.of_nat i / per_page p)) by (unfold bottom, n; lia).
  apply (list_elem_of_lookup_2 _ (i - Z.to_nat bottom)%nat).
  unfold slice.
  assert (Hbi : (Z.to_nat bottom <= i)%nat) by lia.
  rewrite lookup_take_lt.
  - rewrite lookup_drop. replace (Z.to_nat bottom + (i - Z.to_nat bottom))%nat with i by lia.
    exact Hi.
  - destruct (Z.leb_spec (count p) (bottom + per_page p)); lia.
Qed.

Lemma scan_pages_cons p log n ns :
  scan_pages p log (n :: ns)
  = match page p n with
    | Raise e => (Raise e, [PageQuery n])
    | Ok pg =>
        if contains log (page_objects pg) then (Ok (Some n), [PageQuery n])
        else let '(r, t) := scan_pages p log ns in (r, PageQuery n :: t)
    end.
Proof. reflexivity. Qed.

(** The loop over [start, start + k): it stops at the first page that has
    the row, having asked for every page up to it, in order. *)
Lemma scan_pages_first p log : forall (k start n : nat),
  (forall m, (start <= m < start + k)%nat -> exists pg, page p (Z.of_nat m) = Ok pg) ->
  (start <= n < start + k)%nat ->
  page_has p log (Z.of_nat n) = true ->
  exists n0, (start <= n0 <= n)%nat
    /\ page_has p log (Z.of_nat n0) = true
    /\ (forall m, (start <= m < n0)%nat -> page_has p log (Z.of_nat m) = false)
    /\ scan_pages p log (Z.of_nat <$> seq start k)
       = (Ok (Some (Z.of_nat n0)),
          PageQuery <$> (Z.of_nat <$> seq start (S n0 - start))).
Proof.
  induction k as [|k IH]; intros start n Hvalid Hn Hhas; [lia|].
  change (seq start (S k)) with (start :: seq (S start) k).
  rewrite fmap_cons, scan_pages_cons.
  destruct (Hvalid start ltac:(lia)) as [pg Hpg].
  rewrite Hpg.
  destruct (contains log (page_objects pg)) eqn:Hc.
  - exists start. split; [lia|]. split; [unfold page_has; rewrite Hpg; exact Hc|].
    split; [intros m Hm; lia|].
    replace (S start - start)%nat with 1%nat by lia. reflexivity.
  - assert (Hne : n <> start).
    { intros ->. unfold page_has in Hhas. rewrite Hpg in Hhas. congruence. }
    destruct (IH (S start) n) as (n0 & Hn0 & Hh0 & Hmin & Hscan).
    + intros m Hm. apply Hvalid. lia.
    + lia.
    + exact Hhas.
    + exists n0. split; [lia|]. split; [exact Hh0|]. split.
      * intros m Hm. destruct (Nat.eq_dec m start) as [->|Hms].
        -- unfold page_has. rewrite Hpg. exact Hc.
        -- apply Hmin. lia.
      * rewrite Hscan.
        replace (S n0 - start)%nat with (S (S n0 - S start)) by lia. reflexivity.
Qed.

Lemma permalink_warm self log c u params :
  c !! cache_key log = Some (MkEntry u params None) ->
  _permalink_to_log self log c
  = (Ok (Href u (qd_update (qd_copy (GET self)) params)), c, [CacheGet (cache_key log)]).
Proof.
  intros Hc. unfold _permalink_to_log, cache_get. rewrite Hc. reflexivity.
Qed.

Lemma permalink_cold self log c :
  0 < paginate_by self ->
  cache_get (utc_now (platform self)) c (cache_key log) = None ->
  In log (qs_rows (view_object_list self)) ->
  let p := get_paginator self (view_object_list self) (paginate_by self) in
  let u := channel_date_url self None in
  exists n : nat,
    let params := [("msg", PInt (pk log)); ("page", PInt (Z.of_nat n))] in
    (1 <= n)%nat
    /\ page_has p log (Z.of_nat n) = true
    /\ (forall m, (1 <= m < n)%nat -> page_has p log (Z.of_nat m) = false)
    /\ _permalink_to_log self log c
       = (Ok (Href u (qd_update (qd_copy (GET self)) params)),
          <[cache_key log := MkEntry u params None]> c,
          CacheGet (cache_key log)
            :: (PageQuery <$> (Z.of_nat <$> seq 1 n)) ++ [CacheSet (cache_key log) None]).
Proof.
  intros Hpb Hmiss Hin p u.
  assert (Hl : In log (qs_list (object_list p))).
  { unfold qs_list. apply sort_rows_In. exact Hin. }
  apply list_elem_of_In, list_elem_of_lookup_1 in Hl. destruct Hl as [i Hi].
  destruct (row_on_a_page p i log Hpb Hi) as (Hn & Hhas).
  set (nz := Z.of_nat i / per_page p + 1) in *.
  destruct (scan_pages_first p log (Z.to_nat (num_pages p)) 1 (Z.to_nat nz))
    as (n0 & Hn0 & Hh0 & Hmin & Hscan).
  - intros m Hm. apply page_valid. lia.
  - lia.
  - rewrite Z2Nat.id by lia. exact Hhas.
  - exists n0. cbv zeta. split; [lia|]. split; [exact Hh0|]. split; [exact Hmin|].
    unfold _permalink_to_log. rewrite Hmiss. fold p. unfold page_range.
    rewrite Hscan. replace (S n0 - 1)%nat with n0 by lia. reflexivity.
Qed.

Lemma own_day_window (t : Z) :
  instant_of (utc_date t) <= t < instant_of (add_days 1 (utc_date t)).
Proof.
  unfold utc_date. simpl.
  assert (Hd : 0 < US_PER_DAY) by reflexivity.
  pose proof (Z.div_mod t US_PER_DAY ltac:(lia)).
  pose proof (Z.mod_pos_bound t US_PER_DAY Hd). lia.
Qed.

(** C4: resolving a message twice gives the same day and page both
    times.  With no entry in the cache the first resolution asks for the
    day's pages 1, 2, ... in order, stops at the first page that holds the
    message, and stores the target under the message's key with no expiry;
    the second resolution, whenever it happens, reads the cache and asks
    for no page. *)
Theorem permalink_resolution (self : View) (Log_objects : list Log)
    (c : gmap string cache_entry) (s : string) (log : Log) :
  0 < paginate_by self ->
  kwargs self !! "msg_pk" = Some s ->
  get_object_or_404 self Log_objects s = Ok log ->
  In log (filtered_logs (channel self)) ->
  cache_get (utc_now (platform self)) c (cache_key log) = None ->
  let day := utc_date (timestamp log) in
  let key := cache_key log in
  let u := channel_date_url (set_date day self) None in
  let p := get_paginator self (get_queryset (set_date day self)) (paginate_by self) in
  exists n : nat,
    let params := [("msg", PInt (pk log)); ("page", PInt (Z.of_nat n))] in
    let target := Redirect u (qd_update (qd_copy (GET self)) params) true in
    let c' := <[key := MkEntry u params None]> c in
    SingleLogViewer_get self Log_objects c
    = (Ok target, c',
       CacheGet key :: (PageQuery <$> (Z.of_nat <$> seq 1 n)) ++ [CacheSet key None])
    /\ ((1 <= n)%nat
        /\ page_has p log (Z.of_nat n) = true
        /\ forall m, (1 <= m < n)%nat -> page_has p log (Z.of_nat m) = false)
    /\ forall now',
         SingleLogViewer_get (at_time now' self) Log_objects c'
         = (Ok target, c', [CacheGet key]).
Proof.
  intros Hpb Hkw Hobj Hin Hmiss day key u p.
  set (v := set_object_list (get_queryset (set_date day self)) (set_date day self)).
  assert (Hrow : In log (qs_rows (view_object_list v))).
  { unfold v. simpl. apply filter_In. split; [exact Hin|].
    pose proof (own_day_window (timestamp log)) as Hw.
    unfold timestamp__gte, timestamp__lt. apply andb_true_iff.
    split; [apply Z.leb_le|apply Z.ltb_lt]; apply Hw. }
  destruct (permalink_cold v log c Hpb Hmiss Hrow) as (n & H1 & Hhas & Hmin & Hcold).
  exists n. cbv zeta. split; [|split].
  - unfold SingleLogViewer_get. rewrite Hkw, Hobj. fold day. fold v.
    rewrite Hcold. reflexivity.
  - split; [exact H1|]. split; [exact Hhas|exact Hmin].
  - intros now'. unfold SingleLogViewer_get.
    change (kwargs (at_time now' self)) with (kwargs self). rewrite Hkw.
    change (get_object_or_404 (at_time now' self) Log_objects s)
      with (get_object_or_404 self Log_objects s). rewrite Hobj.
    rewrite (permalink_warm _ log _ u
               [("msg", PInt (pk log)); ("page", PInt (Z.of_nat n))]).
    + reflexivity.
    + apply lookup_insert_eq.
Qed.

Lemma permalink_resolution_witness :
  let self := with_paginate_by 2
                (DayLogViewer sample_platform Html (<["msg_pk" := "3"]> ∅) ∅
                   sample_channel) in
  let Log_objects := filtered_logs sample_channel in
  let c : gmap string cache_entry := ∅ in
  let log := MkLog 3 (at_ 2024 1 1 11) "alice" "PRIVMSG" in
  let day := utc_date (timestamp log) in
  let key := cache_key log in
  let u := channel_date_url (set_date day self) None in
  let p := get_paginator self (get_queryset (set_date day self)) (paginate_by self) in
  exists n : nat,
    let params := [("msg", PInt (pk log)); ("page", PInt (Z.of_nat n))] in
    let target := Redirect u (qd_update (qd_copy (GET self)) params) true in
    let c' := <[key := MkEntry u params None]> c in
    SingleLogViewer_get self Log_objects c
    = (Ok target, c',
       CacheGet key :: (PageQuery <$> (Z.of_nat <$> seq 1 n)) ++ [CacheSet key None])
    /\ ((1 <= n)%nat
        /\ page_has p log (Z.of_nat n) = true
        /\ forall m, (1 <= m < n)%nat -> page_has p log (Z.of_nat m) = false)
    /\ forall now',
         SingleLogViewer_get (at_time now' self) Log_objects c'
         = (Ok target, c', [CacheGet key]).
Proof.
  intros self Log_objects c log.
  apply (permalink_resolution self Log_objects c "3" log).
  - reflexivity.
  - reflexivity.
  - vm_compute. reflexivity.
  - right; right; left. reflexivity.
  - reflexivity.
Defined.

(** With two messages to a page, message 3 of 2024-01-01 is on page 2:
    the first resolution asks for pages 1 and 2 and fills the cache, the
    second one only reads the cache, and both give the same target. *)
Example permalink_twice :
  let v := with_paginate_by 2
             (DayLogViewer sample_platform Html (<["msg_pk" := "3"]> ∅) ∅
                sample_channel) in
  let db := filtered_logs sample_channel in
  let key := "line:3:permalink" in
  let first := SingleLogViewer_get v db ∅ in
  first.1.1
  = Ok (Redirect (Url "log_day" (day_of_ymd 2024 1 1))
          (qd_update ∅ [("msg", PInt 3); ("page", PInt 2)]) true)
  /\ first.2 = [CacheGet key; PageQuery 1; PageQuery 2; CacheSet key None]
  /\ SingleLogViewer_get (at_time (sample_now + 24 * HOUR) v) db first.1.2
     = (first.1.1, first.1.2, [CacheGet key]).
Proof. vm_compute. repeat split. Qed.

(** * Further properties of the views and of the logger *)

(** ** Looking a row up by primary key *)

(** X1: [_find_pk] answers with a row of the queryset that carries the key
    [int(pk)], and with [None] exactly when [pk] is no integer or no row
    carries that key. *)
Theorem find_pk_spec (P : Platform) (s : string) (queryset : QuerySet) :
  (forall obj, _find_pk P s queryset = Some obj ->
     py_int P s = Some (pk obj) /\ In obj (qs_rows queryset))
  /\ (_find_pk P s queryset = None <->
      py_int P s = None
      \/ exists n, py_int P s = Some n
           /\ forall obj, In obj (qs_rows queryset) -> pk obj <> n).
Proof.
  unfold _find_pk. destruct (py_int P s) as [n|]; split.
  - intros obj H. apply find_some in H. destruct H as [Hin Hpk].
    apply Z.eqb_eq in Hpk. subst n. split; [reflexivity|].
    unfold qs_list in Hin. apply sort_rows_In in Hin. exact Hin.
  - split.
    + intros H. right. exists n. split; [reflexivity|]. intros obj Hin Hpk.
      assert (Hl : In obj (qs_list queryset)) by (apply sort_rows_In; exact Hin).
      pose proof (find_none _ _ H obj Hl) as Hf. simpl in Hf.
      apply Z.eqb_neq in Hf. contradiction.
    + intros [H|(m & [= <-] & Hall)]; [discriminate|].
      destruct (List.find _ _) as [obj|] eqn:E; [|reflexivity]. exfalso.
      apply find_some in E. destruct E as [Hin Hpk]. apply Z.eqb_eq in Hpk.
      apply (Hall obj); [|exact Hpk].
      unfold qs_list in Hin. apply sort_rows_In in Hin. exact Hin.
  - intros obj H. discriminate.
  - split; [now left|reflexivity].
Qed.

(** ** The weeks of the timeline *)

Lemma monday_of_week (today : Z) :
  let monday := today - weekday today in
  weekday monday = 0 /\ today - 6 <= monday <= today.
Proof.
  unfold weekday. cbv zeta.
  pose proof (Z.div_mod (today + 3) 7 ltac:(lia)) as Hdm.
  pose proof (Z.mod_pos_bound (today + 3) 7 ltac:(lia)) as Hb.
  split; [|lia].
  replace (today - (today + 3) mod 7 + 3) with (((today + 3) / 7) * 7) by lia.
  apply Z.mod_mul. lia.
Qed.

(** X2: [this_week] is the Monday of the week today (UTC) lies in, and
    [last_week] the Monday before it. *)
Theorem timeline_weeks_are_mondays {K} (now : Z) (timeline rest : list (K * list Z))
    (this_week last_week real adjusted : Z) :
  _timeline_context now timeline = Ok (Vars rest this_week last_week real adjusted) ->
  let today := now / US_PER_DAY in
  weekday this_week = 0 /\ today - 6 <= this_week <= today
  /\ weekday last_week = 0 /\ last_week = this_week - 7.
Proof.
  intros H today. apply timeline_context_inv in H. destruct H as (Htw & Hlw & _).
  destruct (monday_of_week today) as [Hm Hr].
  fold today in Htw. rewrite <- Htw in Hm, Hr.
  split; [exact Hm|]. split; [exact Hr|]. split; [|exact Hlw].
  subst last_week. unfold weekday in *.
  replace (this_week - 7 + 3) with (this_week + 3 + (-1) * 7) by lia.
  rewrite Z.mod_add by lia. exact Hm.
Qed.

Lemma timeline_weeks_are_mondays_witness :
  let now := sample_now in
  let today := now / US_PER_DAY in
  let this_week := day_of_ymd 2024 1 1 in
  let last_week := day_of_ymd 2023 12 25 in
  weekday this_week = 0 /\ today - 6 <= this_week <= today
  /\ weekday last_week = 0 /\ last_week = this_week - 7.
Proof.
  intros now today this_week last_week.
  apply (timeline_weeks_are_mondays now [(2024, [day_of_ymd 2024 1 2])] []
           this_week last_week (day_of_ymd 2024 1 2) (day_of_ymd 2023 12 24)).
  vm_compute. reflexivity.
Defined.

(** X3: the adjusted date of the most recent month always lies before last
    week's start, hence before both week buckets, and never after the
    month's own date. *)
Theorem timeline_adjusted_sorts_before_weeks {K} (now : Z)
    (timeline rest : list (K * list Z)) (this_week last_week real adjusted : Z) :
  _timeline_context now timeline = Ok (Vars rest this_week last_week real adjusted) ->
  adjusted < last_week /\ last_week < this_week /\ adjusted <= real
  /\ (real < last_week -> adjusted = real).
Proof.
  intros H. apply timeline_context_inv in H. destruct H as (_ & Hlw & Hadj).
  subst adjusted. unfold adjust_last_month.
  destruct (Z.leb_spec last_week real); [lia|].
  destruct (Z.leb_spec this_week real); lia.
Qed.

Lemma timeline_adjusted_sorts_before_weeks_witness :
  let this_week := day_of_ymd 2024 1 1 in
  let last_week := day_of_ymd 2023 12 25 in
  let real := day_of_ymd 2024 1 2 in
  let adjusted := day_of_ymd 2023 12 24 in
  adjusted < last_week /\ last_week < this_week /\ adjusted <= real
  /\ (real < last_week -> adjusted = real).
Proof.
  intros this_week last_week real adjusted.
  apply (timeline_adjusted_sorts_before_weeks sample_now
           [(2024, [day_of_ymd 2024 1 2])] [] this_week last_week real adjusted).
  vm_compute. reflexivity.
Defined.

(** X4: popping the last month takes the whole last entry of the catalog with
    it: what is left is the catalog without that entry, the date kept is
    the last one the entry lists, and an entry that lists no date is an
    IndexError. *)
Theorem timeline_pops_last_entry {K} (now : Z) (timeline : list (K * list Z))
    (k : K) (months : list Z) :
  (forall d, last months = Some d ->
     exists adjusted this_week last_week,
       _timeline_context now (timeline ++ [(k, months)])
       = Ok (Vars timeline this_week last_week d adjusted))
  /\ (months = [] ->
      _timeline_context now (timeline ++ [(k, months)]) = Raise IndexError).
Proof.
  assert (Hne : forall e, _timeline_context now (timeline ++ [e])
                 = let today := now / US_PER_DAY in
                   let last_monday := today - weekday today in
                   let last_week := last_monday - 7 in
                   '(tl, last_month) ← pop_last_month (timeline ++ [e]);
                   Ok (Vars tl last_monday last_week last_month
                         (adjust_last_month last_monday last_week last_month))).
  { intros e. unfold _timeline_context. destruct timeline; reflexivity. }
  split.
  - intros d Hd. rewrite Hne. cbv zeta.
    rewrite (pop_last_month_ok _ k months d).
    + rewrite removelast_last. simpl. eauto.
    + apply last_snoc.
    + exact Hd.
  - intros ->. rewrite Hne. cbv zeta. unfold pop_last_month.
    rewrite last_snoc. reflexivity.
Qed.

(** ** The neighbouring days *)

(** X5: the day [_get_next_date] names holds at least one visible message and
    starts after the current day does; there is no such day exactly when no
    visible message is at or after the next midnight.  Likewise
    [_get_previous_date] names a day with a message, one that starts
    before the current day does, and none exactly when no visible message
    is earlier than the day's start. *)
Theorem neighbour_days_have_messages (self : View) :
  let rows := filtered_logs (channel self) in
  let start := instant_of (date self) in
  (forall d, _get_next_date self = Some d ->
     1 <= day_count self d /\ start < instant_of d)
  /\ (_get_next_date self = None <->
      forall r, In r rows -> timestamp r < start + US_PER_DAY)
  /\ (forall d, _get_previous_date self = Some d ->
        1 <= day_count self d /\ instant_of d < start)
  /\ (_get_previous_date self = None <->
      forall r, In r rows -> start <= timestamp r).
Proof.
  intros rows start. unfold _get_next_date, _get_previous_date.
  change (qs_first (order_by Ascending _)) with
    (qs_first (MkQS (List.filter (timestamp__gte (instant_of (add_days 1 (date self)))) rows)
                    Ascending)).
  change (qs_first (qs_filter _ _)) with
    (qs_first (MkQS (List.filter (timestamp__lt start) rows) Descending)).
  rewrite instant_of_add_days.
  replace (instant_of (date self) + 1 * US_PER_DAY) with (start + US_PER_DAY)
    by (unfold start; lia).
  split; [|split; [|split]].
  - destruct (qs_first _) as [r|] eqn:Hr; [|discriminate].
    intros d [= <-]. apply qs_first_Some in Hr. destruct Hr as (Hin & Hts & _).
    apply Z.leb_le in Hts.
    pose proof (local_midnight_window self (timestamp r)) as Hw. cbv zeta in Hw.
    split; [|lia]. apply (day_count_pos self r); [exact Hin|exact Hw].
  - destruct (qs_first _) as [r|] eqn:Hr; split.
    + discriminate.
    + intros Hall. apply qs_first_Some in Hr. destruct Hr as (Hin & Hts & _).
      apply Z.leb_le in Hts. specialize (Hall r Hin). lia.
    + intros _ r Hin. pose proof (qs_first_None _ _ _ r Hr Hin) as Hf.
      apply Z.leb_gt in Hf. exact Hf.
    + reflexivity.
  - destruct (qs_first _) as [r|] eqn:Hr; [|discriminate].
    intros d [= <-]. apply qs_first_Some in Hr. destruct Hr as (Hin & Hts & _).
    apply Z.ltb_lt in Hts.
    pose proof (local_midnight_window self (timestamp r)) as Hw. cbv zeta in Hw.
    split; [|lia]. apply (day_count_pos self r); [exact Hin|exact Hw].
  - destruct (qs_first _) as [r|] eqn:Hr; split.
    + discriminate.
    + intros Hall. apply qs_first_Some in Hr. destruct Hr as (Hin & Hts & _).
      apply Z.ltb_lt in Hts. specialize (Hall r Hin). lia.
    + intros _ r Hin. pose proof (qs_first_None _ _ _ r Hr Hin) as Hf.
      apply Z.ltb_ge in Hf. exact Hf.
    + reflexivity.
Qed.

(** ** Query parameters on the links *)

Lemma qd_set_other {V} (k k' : string) (v : V) (d : gmap string (list V)) :
  k' <> k -> qd_set k v d !! k' = d !! k'.
Proof. intros H. unfold qd_set. apply lookup_insert_ne. congruence. Qed.

Lemma qd_set_same {V} (k : string) (v : V) (d : gmap string (list V)) :
  qd_set k v d !! k = Some [v].
Proof. unfold qd_set. apply lookup_insert_eq. Qed.

Lemma qd_copy_lookup (d : gmap string (list string)) (k : string) :
  qd_copy d !! k = (fun l : list string => PStr <$> l) <$> (d !! k).
Proof. unfold qd_copy. apply lookup_fmap. Qed.

Lemma next_link_params self pg l u params :
  get_next_page_link self pg = Ok l -> l = Href u params ->
  exists n, params = qd_set "page" (PInt n) (qd_copy (GET self)).
Proof.
  unfold get_next_page_link. intros H ->.
  destruct (negb (has_next pg)).
  - destruct (_get_next_date self); [|discriminate]. injection H as _ <-. eauto.
  - destruct (next_page_number pg) as [n|e]; simpl in H; [|discriminate].
    injection H as _ <-. eauto.
Qed.

Lemma previous_link_params self pg l u params :
  get_previous_page_link self pg = Ok l -> l = Href u params ->
  exists n, params = qd_set "page" (PInt n) (qd_copy (GET self)).
Proof.
  unfold get_previous_page_link. intros H ->.
  destruct (negb (has_previous pg)).
  - destruct (_get_previous_date self); [|discriminate]. injection H as _ <-. eauto.
  - destruct (previous_page_number pg) as [n|e]; simpl in H; [|discriminate].
    injection H as _ <-. eauto.
Qed.

Lemma paginate_queryset_current self qs ps self' p pg :
  paginate_queryset self qs ps = Ok (self', p, pg) ->
  current_page self' = get_current_page_link self pg.
Proof.
  unfold paginate_queryset, Mixin_paginate_queryset.
  destruct (ListView_paginate_queryset self qs ps) as [[p0 pg0]|e]; simpl; [|discriminate].
  destruct (get_next_page_link self pg0) as [nl|e]; simpl; [|discriminate].
  destruct (get_previous_page_link self pg0) as [pl|e]; simpl; [|discriminate].
  intros [= <- <- <-]. destruct nl; reflexivity.
Qed.

(** X6: every link a day view puts on a page carries the request's query
    parameters unchanged, in particular [tz], except [page], which holds
    one integer. *)
Theorem day_links_keep_the_query (self self' : View) (qs : QuerySet) (ps : Z)
    (p : Paginator) (pg : Page) (l : link) (u : url)
    (params : gmap string (list pval)) :
  paginate_queryset self qs ps = Ok (self', p, pg) ->
  l = next_page self' \/ l = prev_page self' \/ l = current_page self' ->
  l = Href u params ->
  (exists n, params !! "page" = Some [PInt n])
  /\ forall k, k <> "page" ->
       params !! k = (fun vs : list string => PStr <$> vs) <$> (GET self !! k).
Proof.
  intros Hpag Hl Hhref.
  pose proof (paginate_queryset_current _ _ _ _ _ _ Hpag) as Hcur.
  apply paginate_queryset_inv in Hpag. destruct Hpag as (_ & Hn & Hp & _).
  assert (Hex : exists n, params = qd_set "page" (PInt n) (qd_copy (GET self))).
  { destruct Hl as [-> | [-> | ->]].
    - eapply next_link_params; eauto.
    - eapply previous_link_params; eauto.
    - rewrite Hcur in Hhref. unfold get_current_page_link in Hhref.
      injection Hhref as _ <-. eauto. }
  destruct Hex as [n ->]. split.
  - exists n. apply qd_set_same.
  - intros k Hk. rewrite qd_set_other by exact Hk. apply qd_copy_lookup.
Qed.

Lemma day_links_keep_the_query_witness :
  let v := sample_day_view "2024" "01" "01" (<["tz" := ["UTC"]]> ∅) in
  let v' := (paged v).1.1 in
  let params := qd_set "page" (PInt 1) (qd_copy (GET v)) in
  (exists n, params !! "page" = Some [PInt n])
  /\ forall k, k <> "page" ->
       params !! k = (fun vs : list string => PStr <$> vs) <$> (GET v !! k).
Proof.
  intros v v' params.
  apply (day_links_keep_the_query v v' (get_queryset v) (paginate_by v)
           (paged v).1.2 (paged v).2 (next_page v')
           (Url "log_day" (day_of_ymd 2024 1 3)) params).
  - vm_compute. reflexivity.
  - left. reflexivity.
  - vm_compute. reflexivity.
Defined.

(** ** Links of the search and missed-activity views *)

(** X7: once the requested page exists, building the three links cannot fail:
    the next link is empty exactly on the last page and otherwise names
    the following page, the previous link is empty exactly on page 1 and
    otherwise names the preceding page, and the current link names the
    page itself; all three keep the request path. *)
Theorem mixin_page_links_spec (path : string) (self : View) (qs : QuerySet)
    (ps : Z) (p : Paginator) (pg : Page) :
  ListView_paginate_queryset self qs ps = Ok (p, pg) ->
  let params := qd_copy (GET self) in
  exists n pv,
    Mixin_page_links path self qs ps
    = Ok (n, pv, PathHref path (qd_set "page" (PInt (number pg)) params), p, pg)
    /\ (number pg < num_pages p ->
        n = PathHref path (qd_set "page" (PInt (number pg + 1)) params))
    /\ (num_pages p <= number pg -> n = PathEmpty)
    /\ (1 < number pg ->
        pv = PathHref path (qd_set "page" (PInt (number pg - 1)) params))
    /\ (number pg <= 1 -> pv = PathEmpty).
Proof.
  intros Hlv params. unfold Mixin_page_links. rewrite Hlv. simpl.
  apply ListView_paginate_inv in Hlv. destruct Hlv as (_ & Hpp & H1 & Hv).
  unfold Mixin_get_next_page_link, Mixin_get_previous_page_link,
    has_next, has_previous, next_page_number, previous_page_number.
  rewrite Hpp.
  destruct (Z.ltb_spec (number pg) (num_pages p)) as [Hn|Hn];
    destruct (Z.ltb_spec 1 (number pg)) as [Hp|Hp]; simpl.
  - rewrite !validate_number_ok by lia. simpl.
    eexists _, _. split; [reflexivity|]. repeat split; intros; (reflexivity || lia).
  - rewrite validate_number_ok by lia. simpl.
    eexists _, _. split; [reflexivity|]. repeat split; intros; (reflexivity || lia).
  - rewrite validate_number_ok by lia. simpl.
    eexists _, _. split; [reflexivity|]. repeat split; intros; (reflexivity || lia).
  - eexists _, _. split; [reflexivity|]. repeat split; intros; (reflexivity || lia).
Qed.

Lemma mixin_page_links_spec_witness :
  let self := with_paginate_by 2 (sample_day_view "2024" "01" "01" ∅) in
  let qs := get_queryset self in
  let p := get_paginator self qs 2 in
  let pg := MkPage (take 2 (qs_list qs)) 1 p in
  let params := qd_copy (GET self) in
  exists n pv,
    Mixin_page_links "/search/" self qs 2
    = Ok (n, pv, PathHref "/search/" (qd_set "page" (PInt (number pg)) params), p, pg)
    /\ (number pg < num_pages p ->
        n = PathHref "/search/" (qd_set "page" (PInt (number pg + 1)) params))
    /\ (num_pages p <= number pg -> n = PathEmpty)
    /\ (1 < number pg ->
        pv = PathHref "/search/" (qd_set "page" (PInt (number pg - 1)) params))
    /\ (number pg <= 1 -> pv = PathEmpty).
Proof.
  intros self qs p pg.
  apply (mixin_page_links_spec "/search/" self qs 2 p pg).
  vm_compute. reflexivity.
Defined.

(** ** Cache policy of a rendered day page *)

(** X8: after a day view has paginated, its response may be cached publicly
    exactly when the user is anonymous and the page is not the current
    one; the current page, the one without a next link, is always
    private. *)
Theorem live_page_is_never_public (self self' : View) (qs : QuerySet) (ps : Z)
    (p : Paginator) (pg : Page) (anonymous : bool) (seconds : Z) :
  is_current self = false ->
  paginate_queryset self qs ps = Ok (self', p, pg) ->
  h_cache_control (render_to_response self' anonymous seconds)
  = if anonymous && negb (is_current self') then CachePublic seconds
    else CachePrivate.
Proof.
  intros Hcur Hpag. apply paginate_queryset_inv in Hpag.
  destruct Hpag as (_ & _ & _ & Hic). rewrite Hcur, orb_false_r in Hic.
  rewrite Hic, negb_involutive. unfold render_to_response.
  destruct (fmt self'), (truthy (next_page self')), anonymous; reflexivity.
Qed.

Lemma live_page_is_never_public_witness :
  let v := sample_day_view "2024" "01" "03" ∅ in
  let v' := (paged v).1.1 in
  h_cache_control (render_to_response v' true 600)
  = if true && negb (is_current v') then CachePublic 600 else CachePrivate.
Proof.
  intros v v'.
  apply (live_page_is_never_public v v' (get_queryset v) (paginate_by v)
           (paged v).1.2 (paged v).2 true 600).
  - reflexivity.
  - vm_compute. reflexivity.
Defined.


(** ** What a day page shows *)

Lemma slice_In (a b : Z) (l : list Log) (r : Log) : In r (slice a b l) -> In r l.
Proof.
  unfold slice. intros H. apply list_elem_of_In in H.
  apply list_elem_of_In. eapply subseteq_drop, subseteq_take. exact H.
Qed.

Lemma slice_length (a b : Z) (l : list Log) :
  Z.of_nat (length (slice a b l)) <= Z.max 0 (b - a).
Proof. unfold slice. rewrite length_take. lia. Qed.

Lemma page_objects_spec p n pg :
  0 < per_page p ->
  page p n = Ok pg ->
  (forall r, In r (page_objects pg) -> In r (qs_rows (object_list p)))
  /\ Z.of_nat (length (page_objects pg)) <= per_page p.
Proof.
  intros Hpb. unfold page.
  destruct (validate_number p n) as [m|e]; simpl; [|discriminate].
  intros [= <-]. simpl. split.
  - intros r Hr. apply slice_In in Hr. unfold qs_list in Hr.
    apply sort_rows_In in Hr. exact Hr.
  - etransitivity; [apply slice_length|].
    destruct (Z.leb_spec (count p) ((m - 1) * per_page p + per_page p)); lia.
Qed.

(** X9: a rendered day page lists only visible messages of the channel whose
    timestamps lie in the 24 hours from the view date, and no more than
    [paginate_by] of them. *)
Theorem day_page_content (self self' : View) (p : Paginator) (pg : Page) :
  0 < paginate_by self ->
  paginate_queryset self (get_queryset self) (paginate_by self) = Ok (self', p, pg) ->
  let start := instant_of (date self) in
  (forall r, In r (page_objects pg) ->
     In r (filtered_logs (channel self))
     /\ start <= timestamp r < start + US_PER_DAY)
  /\ Z.of_nat (length (page_objects pg)) <= paginate_by self.
Proof.
  intros Hpb Hpag start.
  apply paginate_queryset_inv in Hpag. destruct Hpag as (Hlv & _).
  unfold ListView_paginate_queryset in Hlv.
  destruct (match or_else _ _ with Some _ => _ | None => _ end) as [n|e];
    simpl in Hlv; [|discriminate].
  destruct (page _ n) as [pg'|[]] eqn:E; try discriminate.
  revert Hlv. intros [= <- <-].
  destruct (page_objects_spec
              (ListView_get_paginator self (get_queryset self) (paginate_by self)) n pg'
              Hpb E) as [Hin Hlen].
  split; [|exact Hlen].
  intros r Hr. apply Hin in Hr. simpl in Hr. apply filter_In in Hr.
  destruct Hr as [Hr Hw]. split; [exact Hr|].
  apply andb_true_iff in Hw. destruct Hw as [Hge Hlt].
  unfold timestamp__gte in Hge. unfold timestamp__lt in Hlt.
  rewrite instant_of_add_days in Hlt.
  apply Z.leb_le in Hge. apply Z.ltb_lt in Hlt. unfold start. lia.
Qed.

Lemma day_page_content_witness :
  let v := with_paginate_by 2 (sample_day_view "2024" "01" "01" ∅) in
  let pg := (paged v).2 in
  let start := instant_of (date v) in
  (forall r, In r (page_objects pg) ->
     In r (filtered_logs (channel v))
     /\ start <= timestamp r < start + US_PER_DAY)
  /\ Z.of_nat (length (page_objects pg)) <= paginate_by v.
Proof.
  intros v pg.
  apply (day_page_content v (paged v).1.1 (paged v).1.2 pg).
  - reflexivity.
  - vm_compute. reflexivity.
Defined.

(** ** A request without a date *)

Lemma num_pages_default (qs : QuerySet) (pb : Z) (b : bool) :
  1 <= num_pages (MkPaginator qs pb b) ->
  num_pages (MkPaginator qs pb true) = num_pages (MkPaginator qs pb b).
Proof.
  unfold num_pages, count. simpl. destruct b; simpl; [reflexivity|].
  rewrite andb_false_r, andb_true_r.
  destruct (qs_count qs =? 0); [lia|reflexivity].
Qed.

(** X10: when year, month or day is missing, the view shows the last page of
    today (UTC) whatever [page] the query string asks for: [set_view_date]
    puts "last" into the URL arguments, which the paginator reads first. *)
Theorem dateless_request_shows_last_page (self v : View) (d : pytime) :
  kwargs self !! "year" = None \/ kwargs self !! "month" = None
  \/ kwargs self !! "day" = None ->
  py_int (platform self) "last" = None ->
  set_view_date self = Ok (v, d) ->
  let w := set_object_list (get_queryset (set_date d v)) (set_date d v) in
  let p := get_paginator w (view_object_list w) (paginate_by w) in
  d = utc_date (utc_now (platform self))
  /\ (forall p' pg,
       ListView_paginate_queryset w (view_object_list w) (paginate_by w) = Ok (p', pg) ->
       number pg = num_pages p)
  /\ (allow_empty self = true -> 0 < paginate_by self ->
      exists pg,
        ListView_paginate_queryset w (view_object_list w) (paginate_by w) = Ok (p, pg)).
Proof.
  intros Hmiss Hlast Hsvd.
  rewrite (set_view_date_dateless self Hmiss) in Hsvd.
  injection Hsvd as Hv Hd. subst v d. intros w p.
  split; [reflexivity|].
  set (q := ListView_get_paginator w (view_object_list w) (paginate_by w)).
  assert (Hlv : ListView_paginate_queryset w (view_object_list w) (paginate_by w)
                = match page q (num_pages q) with
                  | Ok pg => Ok (q, pg)
                  | Raise (EmptyPage msg) => Raise (Http404 msg)
                  | Raise e => Raise e
                  end).
  { unfold ListView_paginate_queryset.
    change (kwargs w) with (<["page" := "last"]> (kwargs self)).
    rewrite lookup_insert_eq. simpl.
    change (py_int (platform w)) with (py_int (platform self)). rewrite Hlast.
    reflexivity. }
  rewrite Hlv. split.
  - intros p' pg.
    destruct (page q (num_pages q)) as [pg'|[]] eqn:E; try discriminate.
    intros [= <- <-]. apply page_inv in E. destruct E as (Hnum & _ & Hone & _).
    rewrite Hnum. symmetry.
    apply (num_pages_default (view_object_list w) (paginate_by w) (allow_empty w)).
    exact Hone.
  - intros Hae Hpb.
    assert (Hq : q = p).
    { unfold q, p, ListView_get_paginator, get_paginator.
      change (allow_empty w) with (allow_empty self). rewrite Hae. reflexivity. }
    rewrite Hq.
    assert (Hn : 1 <= num_pages p).
    { unfold num_pages. change (allow_empty_first_page p) with true.
      simpl negb. rewrite andb_false_r. change (per_page p) with (paginate_by self).
      apply ceil_div_pos; [exact Hpb|lia]. }
    destruct (page_valid p (num_pages p)) as [pg Hpg]; [lia|].
    rewrite Hpg. eauto.
Qed.

Lemma dateless_request_shows_last_page_witness :
  let self := DayLogViewer sample_platform Html ∅ (<["page" := ["7"]]> ∅)
                sample_channel in
  let v := set_kwargs (<["page" := "last"]> (kwargs self)) self in
  let d := utc_date sample_now in
  let w := set_object_list (get_queryset (set_date d v)) (set_date d v) in
  let p := get_paginator w (view_object_list w) (paginate_by w) in
  d = utc_date (utc_now (platform self))
  /\ (forall p' pg,
       ListView_paginate_queryset w (view_object_list w) (paginate_by w) = Ok (p', pg) ->
       number pg = num_pages p)
  /\ (allow_empty self = true -> 0 < paginate_by self ->
      exists pg,
        ListView_paginate_queryset w (view_object_list w) (paginate_by w) = Ok (p, pg)).
Proof.
  intros self v d.
  apply (dateless_request_shows_last_page self v d).
  - left. reflexivity.
  - reflexivity.
  - vm_compute. reflexivity.
Defined.

(** ** A channel without messages *)

(** X11: with [allow_empty] off and not one visible message in the channel,
    a request for a date within the range of [datetime] (not its first
    or last day, where computing the day's window can overflow) finds
    nothing to redirect to and is a 404. *)
Theorem empty_channel_is_not_found (self v : View) (d : pytime) :
  set_view_date self = Ok (v, d) ->
  within_datetime_range self d ->
  allow_empty self = false ->
  filtered_logs (channel self) = [] ->
  get self = Raise (Http404 "Empty list and 'DayLogViewer.allow_empty' is False.").
Proof.
  intros Hsvd _ Hae Hrows. rewrite (get_unfold self v d Hsvd). cbv zeta.
  assert (Hsame : allow_empty v = allow_empty self /\ channel v = channel self).
  { destruct (set_view_date_inv self v d Hsvd) as [E | E]; subst v; split; reflexivity. }
  destruct Hsame as [Ha Hc].
  unfold _nearby_log_url, get_queryset, qs_exists, qs_first, qs_list. simpl.
  rewrite Ha, Hae, Hc, Hrows. reflexivity.
Qed.

Lemma empty_channel_is_not_found_witness :
  get (with_allow_empty false
         (DayLogViewer sample_platform Html (day_kwargs "2024" "01" "02") ∅
            (MkChannel [] [])))
  = Raise (Http404 "Empty list and 'DayLogViewer.allow_empty' is False.").
Proof.
  apply (empty_channel_is_not_found
           (with_allow_empty false
              (DayLogViewer sample_platform Html (day_kwargs "2024" "01" "02") ∅
                 (MkChannel [] [])))
           (with_allow_empty false
              (DayLogViewer sample_platform Html (day_kwargs "2024" "01" "02") ∅
                 (MkChannel [] [])))
           (PyDateTime (day_of_ymd 2024 1 2) 0 0)).
  - vm_compute. reflexivity.
  - unfold within_datetime_range, valid_zone, inner_day.
    split; [split; [|intros t]; vm_compute; split; reflexivity|].
    split; [vm_compute; split; reflexivity|].
    split; [vm_compute; split; [reflexivity|discriminate]|].
    intros r [].
  - reflexivity.
  - reflexivity.
Defined.

(** ** Permalinks that cannot be resolved *)

Lemma contains_false_slice log a b l :
  contains log l = false -> contains log (slice a b l) = false.
Proof.
  intros H. unfold contains in *.
  destruct (existsb _ (slice a b l)) eqn:E; [|reflexivity].
  apply existsb_exists in E. destruct E as (r & Hr & Hpk).
  apply slice_In in Hr.
  assert (Ht : existsb (fun r => pk r =? pk log) l = true)
    by (apply existsb_exists; eauto).
  congruence.
Qed.

Lemma scan_pages_none p log : forall ns,
  (forall n, In n ns -> exists pg, page p n = Ok pg) ->
  contains log (qs_list (object_list p)) = false ->
  scan_pages p log ns = (Ok None, PageQuery <$> ns).
Proof.
  induction ns as [|n ns IH]; intros Hvalid Hno; [reflexivity|].
  rewrite scan_pages_cons.
  destruct (Hvalid n (or_introl eq_refl)) as [pg Hpg]. rewrite Hpg.
  assert (Hc : contains log (page_objects pg) = false).
  { unfold page in Hpg. destruct (validate_number p n) as [m|e]; simpl in Hpg;
      [|discriminate].
    injection Hpg as <-. simpl. apply contains_false_slice. exact Hno. }
  rewrite Hc, IH; [reflexivity| |exact Hno].
  intros m Hm. apply Hvalid. now right.
Qed.

Lemma page_range_valid p n : In n (page_range p) -> exists pg, page p n = Ok pg.
Proof.
  unfold page_range. intros H. apply list_elem_of_In, list_elem_of_fmap in H.
  destruct H as (k & -> & Hk). apply elem_of_seq in Hk.
  apply page_valid. lia.
Qed.

(** X12: a message that is not among the day's visible messages is not found:
    with nothing cached, [_permalink_to_log] asks for every page of the
    day, in order, raises a 404 and writes nothing to the cache. *)
Theorem permalink_not_found (self : View) (log : Log) (c : gmap string cache_entry) :
  cache_get (utc_now (platform self)) c (cache_key log) = None ->
  contains log (qs_list (view_object_list self)) = false ->
  let p := get_paginator self (view_object_list self) (paginate_by self) in
  _permalink_to_log self log c
  = (Raise (Http404 ""), c,
     CacheGet (cache_key log) :: (PageQuery <$> page_range p)).
Proof.
  intros Hmiss Hno p. unfold _permalink_to_log. rewrite Hmiss. fold p.
  rewrite (scan_pages_none p log (page_range p)).
  - reflexivity.
  - intros n Hn. apply page_range_valid. exact Hn.
  - exact Hno.
Qed.

Lemma permalink_not_found_witness :
  let self := with_paginate_by 2 (sample_day_view "2024" "01" "01" ∅) in
  let log := MkLog 4 (at_ 2024 1 3 8) "bob" "PRIVMSG" in
  let p := get_paginator self (view_object_list self) (paginate_by self) in
  _permalink_to_log self log ∅
  = (Raise (Http404 ""), ∅,
     CacheGet (cache_key log) :: (PageQuery <$> page_range p)).
Proof.
  intros self log.
  apply (permalink_not_found self log ∅).
  - reflexivity.
  - vm_compute. reflexivity.
Defined.

Lemma permalink_to_log_outcome self log c r c' t :
  _permalink_to_log self log c = (r, c', t) ->
  match r with
  | Ok (Href _ _) => True
  | Ok _ => False
  | Raise _ => c' = c
  end.
Proof.
  unfold _permalink_to_log.
  destruct (cache_get _ c _) as [[u params]|].
  - intros [= <- <- _]. exact I.
  - destruct (scan_pages _ _ _) as [[[n|]|e'] tr]; intros [= <- <- _];
      (exact I || reflexivity).
Qed.

(** X13: a permalink request that fails leaves the cache as it was; when
    [msg_pk] is no integer or names no message, it fails with a 404
    before the cache or a page is asked for. *)
Theorem failed_permalink_keeps_the_cache (self : View) (Log_objects : list Log)
    (c : gmap string cache_entry) :
  (forall e c' t, SingleLogViewer_get self Log_objects c = (Raise e, c', t) -> c' = c)
  /\ (forall s, kwargs self !! "msg_pk" = Some s ->
        py_int (platform self) s = None ->
        SingleLogViewer_get self Log_objects c = (Raise (Http404 ""), c, []))
  /\ (forall s n, kwargs self !! "msg_pk" = Some s ->
        py_int (platform self) s = Some n ->
        (forall r, In r Log_objects -> pk r <> n) ->
        SingleLogViewer_get self Log_objects c
        = (Raise (Http404 "No Log matches the given query."), c, [])).
Proof.
  split; [|split].
  - intros e c' t. unfold SingleLogViewer_get.
    destruct (kwargs self !! "msg_pk") as [s|]; [|intros [= _ <- _]; reflexivity].
    destruct (get_object_or_404 self Log_objects s) as [log|[]];
      try (intros [= _ <- _]; reflexivity).
    destruct (_permalink_to_log _ log c) as [[r c''] tr] eqn:E.
    apply permalink_to_log_outcome in E.
    destruct r as [[| |u q]|e']; try contradiction.
    + discriminate.
    + intros [= _ <- _]. exact E.
  - intros s Hs Hint. unfold SingleLogViewer_get, get_object_or_404, int.
    rewrite Hs, Hint. reflexivity.
  - intros s n Hs Hint Hnone. unfold SingleLogViewer_get, get_object_or_404, int.
    rewrite Hs, Hint. simpl.
    destruct (List.find _ Log_objects) as [r|] eqn:E; [|reflexivity].
    apply find_some in E. destruct E as [Hin Hpk]. apply Z.eqb_eq in Hpk.
    exfalso. apply (Hnone r Hin Hpk).
Qed.

(** ** More on missed activity *)

(** X14: the view answers "User hasn't left room" exactly when no message of
    the channel is a QUIT or PART of the nick. *)
Theorem missed_without_exit (self : View) (n : string) :
  kwargs self !! "nick" = Some n ->
  (Missed_get_queryset self = Raise (Http404 "User hasn't left room")
   <-> forall r, In r (log_set (channel self)) -> ~ is_exit n r).
Proof.
  intros Hnick. unfold Missed_get_queryset. rewrite Hnick.
  change (qs_first (last_exit_qs n _))
    with (qs_first (MkQS (List.filter (exit_q n) (log_set (channel self))) Descending)).
  destruct (qs_first _) as [e|] eqn:He; split.
  - discriminate.
  - intros Hall. exfalso. apply qs_first_Some in He. destruct He as (Hin & Hq & _).
    apply (Hall e Hin). apply exit_q_iff. exact Hq.
  - intros _ r Hin Hex. apply exit_q_iff in Hex.
    pose proof (qs_first_None _ _ _ r He Hin). congruence.
  - reflexivity.
Qed.

Lemma missed_without_exit_witness :
  Missed_get_queryset
    (MissedLogViewer sample_platform Html (<["nick" := "bob"]> ∅) ∅ missed_channel)
  = Raise (Http404 "User hasn't left room")
  <-> forall r, In r (log_set missed_channel) -> ~ is_exit "bob" r.
Proof.
  apply (missed_without_exit
           (MissedLogViewer sample_platform Html (<["nick" := "bob"]> ∅) ∅
              missed_channel) "bob").
  reflexivity.
Defined.

(** X15: whatever the view returns starts with the exit itself: the QUIT or
    PART it found is among the messages, every message returned is a
    message of the channel later than [fetch_after], and [fetch_after] is
    one millisecond before the exit. *)
Theorem missed_result_starts_at_the_exit (self self' : View) (qs : QuerySet) :
  Missed_get_queryset self = Ok (self', qs) ->
  exists n e,
    kwargs self !! "nick" = Some n
    /\ In e (qs_rows qs) /\ is_exit n e
    /\ fetch_after self' = Some (timestamp e - 1000)
    /\ forall r, In r (qs_rows qs) ->
         In r (log_set (channel self)) /\ timestamp e - 1000 < timestamp r.
Proof.
  unfold Missed_get_queryset.
  destruct (kwargs self !! "nick") as [n|]; [|discriminate].
  change (qs_first (last_exit_qs n _))
    with (qs_first (MkQS (List.filter (exit_q n) (log_set (channel self))) Descending)).
  destruct (qs_first _) as [e|] eqn:He; [|discriminate].
  apply qs_first_Some in He. destruct He as (Hin & Hq & _). apply exit_q_iff in Hq.
  change (qs_first (last_join_qs n (timestamp e) _))
    with (qs_first (MkQS (List.filter (join_q n (timestamp e)) (log_set (channel self)))
                         Ascending)).
  destruct (qs_first _) as [j|] eqn:Hj; intros [= <- <-];
    exists n, e; split; try reflexivity; simpl.
  - apply qs_first_Some in Hj. destruct Hj as (_ & Hjq & _).
    apply join_q_iff in Hjq. destruct Hjq as (_ & _ & Hlt).
    split; [|split; [exact Hq|split; [reflexivity|]]].
    + apply filter_In. split; [exact Hin|]. unfold timestamp__range.
      apply andb_true_iff. split; apply Z.leb_le; lia.
    + intros r Hr. apply filter_In in Hr. destruct Hr as [Hr Hw].
      unfold timestamp__range in Hw. apply andb_true_iff in Hw.
      destruct Hw as [Hlo _]. apply Z.leb_le in Hlo. split; [exact Hr|lia].
  - split; [|split; [exact Hq|split; [reflexivity|]]].
    + apply filter_In. split; [exact Hin|]. unfold timestamp__gte.
      apply Z.leb_le. lia.
    + intros r Hr. apply filter_In in Hr. destruct Hr as [Hr Hw].
      unfold timestamp__gte in Hw. apply Z.leb_le in Hw. split; [exact Hr|lia].
Qed.

Lemma missed_result_starts_at_the_exit_witness :
  let v := MissedLogViewer sample_platform Html (<["nick" := "alice"]> ∅) ∅
             missed_channel in
  let v' := set_fetch_after (at_ 2024 1 2 10 - 1 * US_PER_MS) v in
  let qs := MkQS [ MkLog 11 (at_ 2024 1 2 10) "alice" "QUIT";
                   MkLog 12 (at_ 2024 1 2 11) "bob" "PRIVMSG";
                   MkLog 13 (at_ 2024 1 2 12) "Alice_" "JOIN" ] Ascending in
  exists n e,
    kwargs v !! "nick" = Some n
    /\ In e (qs_rows qs) /\ is_exit n e
    /\ fetch_after v' = Some (timestamp e - 1000)
    /\ forall r, In r (qs_rows qs) ->
         In r (log_set (channel v)) /\ timestamp e - 1000 < timestamp r.
Proof.
  intros v v' qs.
  apply (missed_result_starts_at_the_exit v v' qs).
  vm_compute. reflexivity.
Defined.

(** ** The logger plugin *)

Lemma string_drop_app (p s : string) :
  string_drop (String.length p) (p +:+ s) = s.
Proof. induction p as [|a p IH]; [reflexivity|]. rewrite append_cons. exact IH. Qed.

Lemma strip_action_plain (t : string) :
  String.prefix "ACTION " t = false -> strip_action t = t.
Proof. unfold strip_action. intros ->. reflexivity. Qed.

Lemma strip_action_me (t : string) : strip_action ("ACTION " +:+ t) = t.
Proof.
  unfold strip_action.
  assert (H : String.prefix "ACTION " ("ACTION " +:+ t) = true)
    by (apply prefix_iff; eauto).
  rewrite H. apply (string_drop_app "ACTION " t).
Qed.

(** X16: [logit] only ever appends: the table it leaves is the table it found,
    or that table followed by one row made from the line (with the full
    text, not the stripped one).  A line outside a channel, one whose
    channel name does not start with #, is never logged; with no ignore
    prefix configured every channel line is. *)
Theorem logit_is_append_only (re_match : matcher) (config : config_value)
    (line : Line) (table table' : list LogRow) :
  logit re_match config line table = Some table' ->
  (table' = table \/ table' = table ++ [row_of_line line])
  /\ (String.prefix "#" (_channel_name line) = false -> table' = table)
  /\ (String.prefix "#" (_channel_name line) = true ->
      normalize_ignore_prefix config = [] ->
      table' = table ++ [row_of_line line] /\ row_text (row_of_line line) = full_text line).
Proof.
  unfold logit. destruct (String.prefix "#" (_channel_name line)) eqn:Hch.
  - destruct (should_ignore_text _ _ _) as [[|]|] eqn:Hs; [| |discriminate];
      intros [= <-]; (split; [auto|]); (split; [discriminate|]); intros _ Hn;
      rewrite Hn in Hs; simpl in Hs; [discriminate|].
    split; reflexivity.
  - intros [= <-]. split; [now left|]. split; [reflexivity|discriminate].
Qed.

Lemma logit_is_append_only_witness :
  let line := MkLine "#metabrainz" 7 "hello" "hello" "alice" sample_now
                "host" "PRIVMSG" ":alice PRIVMSG #metabrainz :hello" in
  let table' := [row_of_line line] in
  (table' = [] \/ table' = [] ++ [row_of_line line])
  /\ (String.prefix "#" (_channel_name line) = false -> table' = [])
  /\ (String.prefix "#" (_channel_name line) = true ->
      normalize_ignore_prefix (CfgList ["!-"]) = [] ->
      table' = [] ++ [row_of_line line] /\ row_text (row_of_line line) = full_text line).
Proof.
  intros line table'.
  apply (logit_is_append_only literal_match (CfgList ["!-"]) line [] table').
  vm_compute. reflexivity.
Defined.

(** X17: a /me line is filtered by the same rule as a plain line: with the
    "ACTION " prefix in front of a text that does not itself begin with
    it, [logit] does exactly what it does for the text alone. *)
Theorem logit_treats_actions_like_text (re_match : matcher) (config : config_value)
    (table : list LogRow) (cn : string) (cpk : Z) (t ft u : string) (rc : Z)
    (h cmd raw : string) :
  String.prefix "ACTION " t = false ->
  logit re_match config (MkLine cn cpk ("ACTION " +:+ t) ft u rc h cmd raw) table
  = logit re_match config (MkLine cn cpk t ft u rc h cmd raw) table.
Proof.
  intros Ht. unfold logit. simpl.
  rewrite strip_action_me, (strip_action_plain t Ht). reflexivity.
Qed.

Lemma logit_treats_actions_like_text_witness :
  logit literal_match (CfgList ["!-"])
    (MkLine "#metabrainz" 7 ("ACTION " +:+ "!-secret") "!-secret" "alice"
       sample_now "host" "PRIVMSG" "raw") []
  = logit literal_match (CfgList ["!-"])
      (MkLine "#metabrainz" 7 "!-secret" "!-secret" "alice"
         sample_now "host" "PRIVMSG" "raw") [].
Proof.
  apply (logit_treats_actions_like_text literal_match (CfgList ["!-"]) []
           "#metabrainz" 7 "!-secret" "!-secret" "alice" sample_now
           "host" "PRIVMSG" "raw").
  reflexivity.
Defined.

(** X18: a text is ignored exactly when some configured prefix matches it and
    every prefix before that one was tried and did not; a prefix that
    does not compile fails the call only if no earlier prefix matched. *)
Theorem should_ignore_text_spec (re_match : matcher) (text : string)
    (ignore_prefix : list string) :
  (should_ignore_text re_match text ignore_prefix = Some true <->
   exists tried p rest, ignore_prefix = tried ++ p :: rest
     /\ re_match p text = Some true
     /\ forall q, In q tried -> re_match q text = Some false)
  /\ (should_ignore_text re_match text ignore_prefix = Some false <->
      forall q, In q ignore_prefix -> re_match q text = Some false).
Proof.
  induction ignore_prefix as [|p l [IHt IHf]]; simpl.
  - split; split.
    + discriminate.
    + intros (tried & p & rest & H & _). destruct tried; discriminate.
    + intros _ q [].
    + reflexivity.
  - destruct (re_match p text) as [[|]|] eqn:Hp; split; split.
    + intros _. exists [], p, l. repeat split; [exact Hp|intros q []].
    + reflexivity.
    + discriminate.
    + intros H. specialize (H p (or_introl eq_refl)). congruence.
    + intros H. apply IHt in H. destruct H as (tried & p' & rest & -> & Hm & Hall).
      exists (p :: tried), p', rest. repeat split; [exact Hm|].
      intros q [<-|Hq]; [exact Hp|auto].
    + intros (tried & p' & rest & H & Hm & Hall). apply IHt.
      destruct tried as [|q tried]; simpl in H; injection H as <- ->.
      * congruence.
      * exists tried, p', rest. repeat split; [exact Hm|]. intros q' Hq'. apply Hall. now right.
    + intros H q [<-|Hq]; [exact Hp|]. apply IHf; assumption.
    + intros H. apply IHf. intros q Hq. apply H. now right.
    + discriminate.
    + intros (tried & p' & rest & H & Hm & Hall).
      destruct tried as [|q tried]; simpl in H; injection H as <- ->.
      * congruence.
      * specialize (Hall p (or_introl eq_refl)). congruence.
    + discriminate.
    + intros H. specialize (H p (or_introl eq_refl)). congruence.
Qed.

(** ** Walking to a neighbouring day and back *)

Lemma day_of_instant (x day : Z) :
  day * US_PER_DAY <= x < day * US_PER_DAY + US_PER_DAY -> x / US_PER_DAY = day.
Proof.
  intros H. symmetry. apply (Z.div_unique x US_PER_DAY day (x - day * US_PER_DAY)).
  - left. lia.
  - lia.
Qed.

Lemma day_of_instant_ge (x day : Z) :
  day * US_PER_DAY + US_PER_DAY <= x -> day + 1 <= x / US_PER_DAY.
Proof.
  intros H. apply Z.div_le_lower_bound; [reflexivity|lia].
Qed.

Lemma day_of_instant_lt (x day : Z) :
  x < day * US_PER_DAY -> x / US_PER_DAY < day.
Proof.
  intros H. apply Z.div_lt_upper_bound; [reflexivity|lia].
Qed.

Lemma day_count_pos_inv self d :
  1 <= day_count self d ->
  exists m, In m (filtered_logs (channel self))
    /\ instant_of d <= timestamp m < instant_of d + US_PER_DAY.
Proof.
  unfold day_count, qs_count, _date_query_set. simpl.
  destruct (List.filter _ _) as [|m l] eqn:E; simpl; [lia|]. intros _.
  assert (Hm : In m (List.filter
            (fun r => timestamp__gte (instant_of d) r
                      && timestamp__lt (instant_of (add_days 1 d)) r)
            (filtered_logs (channel self)))) by (rewrite E; now left).
  apply filter_In in Hm. destruct Hm as [Hin Hw]. exists m. split; [exact Hin|].
  apply andb_true_iff in Hw. destruct Hw as [Hge Hlt].
  unfold timestamp__gte in Hge. unfold timestamp__lt in Hlt.
  rewrite instant_of_add_days in Hlt.
  apply Z.leb_le in Hge. apply Z.ltb_lt in Hlt. lia.
Qed.

Section FixedOffset.
Variable self : View.
Variables day off : Z.
Hypothesis at_midnight : date self = PyDateTime day 0 off.
Hypothesis fixed : forall t, tz_utcoffset (request_timezone self) t = off.
Hypothesis has_messages : 1 <= day_count self (date self).

Lemma local_midnight_fixed ts :
  _local_date_at_midnight self ts = PyDateTime ((ts + off) / US_PER_DAY) 0 off.
Proof. unfold _local_date_at_midnight. rewrite fixed. reflexivity. Qed.

Lemma next_then_previous_date d' :
  _get_next_date self = Some d' ->
  _get_previous_date (set_date d' self) = Some (date self).
Proof.
  intros Hnext.
  destruct (day_count_pos_inv self (date self) has_messages) as (m & Hm & Hmw).
  rewrite at_midnight in Hmw. simpl in Hmw.
  unfold _get_next_date in Hnext.
  change (qs_first (order_by Ascending _)) with
    (qs_first (MkQS (List.filter (timestamp__gte (instant_of (add_days 1 (date self))))
                       (filtered_logs (channel self))) Ascending)) in Hnext.
  rewrite instant_of_add_days, at_midnight in Hnext. simpl in Hnext.
  destruct (qs_first _) as [r'|] eqn:Hr'; [|discriminate].
  injection Hnext as <-. apply qs_first_Some in Hr'.
  destruct Hr' as (Hin' & Hts' & Hmin'). apply Z.leb_le in Hts'.
  rewrite local_midnight_fixed.
  set (day' := (timestamp r' + off) / US_PER_DAY).
  assert (Hday' : day + 1 <= day') by (apply day_of_instant_ge; lia).
  unfold _get_previous_date.
  change (qs_first _) with
    (qs_first (MkQS (List.filter (timestamp__lt (instant_of (PyDateTime day' 0 off)))
                       (filtered_logs (channel self))) Descending)).
  simpl instant_of.
  destruct (qs_first_is_Some (timestamp__lt (day' * US_PER_DAY + 0 - off))
              (filtered_logs (channel self)) Descending m Hm) as [r Hr].
  { apply Z.ltb_lt. nia. }
  rewrite Hr. apply qs_first_Some in Hr. destruct Hr as (Hin & Hts & Hmax).
  apply Z.ltb_lt in Hts.
  assert (Hlo : timestamp m <= timestamp r).
  { apply Z.leb_le. apply (Hmax m Hm). apply Z.ltb_lt. nia. }
  assert (Hhi : timestamp r < day * US_PER_DAY + 0 - off + 1 * US_PER_DAY).
  { destruct (Z.lt_ge_cases (timestamp r) (day * US_PER_DAY + 0 - off + 1 * US_PER_DAY))
      as [|Hge]; [assumption|]. exfalso.
    assert (Hle : timestamp r' <= timestamp r).
    { apply Z.leb_le. apply (Hmin' r Hin). apply Z.leb_le. exact Hge. }
    pose proof (Z.mul_div_le (timestamp r' + off) US_PER_DAY ltac:(reflexivity)) as Hd.
    fold day' in Hd. lia. }
  change (_local_date_at_midnight (set_date (PyDateTime day' 0 off) self) (timestamp r))
    with (_local_date_at_midnight self (timestamp r)).
  rewrite local_midnight_fixed, at_midnight.
  rewrite (day_of_instant (timestamp r + off) day) by lia. reflexivity.
Qed.

Lemma previous_then_next_date d' :
  _get_previous_date self = Some d' ->
  _get_next_date (set_date d' self) = Some (date self).
Proof.
  intros Hprev.
  destruct (day_count_pos_inv self (date self) has_messages) as (m & Hm & Hmw).
  rewrite at_midnight in Hmw. simpl in Hmw.
  unfold _get_previous_date in Hprev.
  change (qs_first _) with
    (qs_first (MkQS (List.filter (timestamp__lt (instant_of (date self)))
                       (filtered_logs (channel self))) Descending)) in Hprev.
  rewrite at_midnight in Hprev. simpl in Hprev.
  destruct (qs_first _) as [r'|] eqn:Hr'; [|discriminate].
  injection Hprev as <-. apply qs_first_Some in Hr'.
  destruct Hr' as (Hin' & Hts' & Hmax'). apply Z.ltb_lt in Hts'.
  rewrite local_midnight_fixed.
  set (day' := (timestamp r' + off) / US_PER_DAY).
  assert (Hday' : day' < day) by (apply day_of_instant_lt; lia).
  unfold _get_next_date.
  change (qs_first _) with
    (qs_first (MkQS (List.filter
                       (timestamp__gte (instant_of (add_days 1 (PyDateTime day' 0 off))))
                       (filtered_logs (channel self))) Ascending)).
  simpl instant_of.
  destruct (qs_first_is_Some (timestamp__gte ((day' + 1) * US_PER_DAY + 0 - off))
              (filtered_logs (channel self)) Ascending m Hm) as [r Hr].
  { apply Z.leb_le. nia. }
  rewrite Hr. apply qs_first_Some in Hr. destruct Hr as (Hin & Hts & Hmin).
  apply Z.leb_le in Hts.
  assert (Hhi : timestamp r <= timestamp m).
  { apply Z.leb_le. apply (Hmin m Hm). apply Z.leb_le. nia. }
  assert (Hlo : day * US_PER_DAY + 0 - off <= timestamp r).
  { destruct (Z.le_gt_cases (day * US_PER_DAY + 0 - off) (timestamp r))
      as [|Hlt]; [assumption|]. exfalso.
    assert (Hle : timestamp r <= timestamp r').
    { apply Z.leb_le. apply (Hmax' r Hin). apply Z.ltb_lt. lia. }
    pose proof (Z.mul_succ_div_gt (timestamp r' + off) US_PER_DAY ltac:(reflexivity)) as Hd.
    fold day' in Hd. lia. }
  change (_local_date_at_midnight (set_date (PyDateTime day' 0 off) self) (timestamp r))
    with (_local_date_at_midnight self (timestamp r)).
  rewrite local_midnight_fixed, at_midnight.
  rewrite (day_of_instant (timestamp r + off) day) by lia. reflexivity.
Qed.

End FixedOffset.

(** X19: in a zone with a fixed offset, and on a day that has messages: the
    next link of the day's last page leads to a day whose first page
    links back to the day one came from, at that day's last page. *)
Theorem next_then_previous_returns (self : View) (day off : Z) (pg pg' : Page)
    (u : url) (params : gmap string (list pval)) :
  date self = PyDateTime day 0 off ->
  (forall t, tz_utcoffset (request_timezone self) t = off) ->
  1 <= day_count self (date self) ->
  has_next pg = false ->
  has_previous pg' = false ->
  get_next_page_link self pg = Ok (Href u params) ->
  get_previous_page_link (set_date (PyDateTime (u_day u) 0 off) self) pg'
  = Ok (Href (Url (u_viewname u) day)
          (qd_set "page" (PInt (pageCount self (date self))) (qd_copy (GET self)))).
Proof.
  intros Hdate Hfixed Hcount Hlast Hfirst Hnext.
  unfold get_next_page_link in Hnext. rewrite Hlast in Hnext. simpl in Hnext.
  destruct (_get_next_date self) as [d'|] eqn:Hd'; [|discriminate].
  injection Hnext as <- _.
  assert (Hd'' : d' = PyDateTime (calendar_day d') 0 off).
  { unfold _get_next_date in Hd'. destruct (qs_first _) as [r|]; [|discriminate].
    injection Hd' as <-. rewrite (local_midnight_fixed self off Hfixed). reflexivity. }
  change (u_day (channel_date_url self (Some d'))) with (calendar_day d').
  rewrite <- Hd''.
  pose proof (next_then_previous_date self day off Hdate Hfixed Hcount d' Hd') as Hback.
  unfold get_previous_page_link. rewrite Hfirst, Hback. simpl.
  assert (Hn : num_pages (_date_paginator (set_date d' self) (date self))
               = pageCount self (date self)).
  { rewrite num_pages_nonempty; [reflexivity|exact Hcount]. }
  rewrite Hn. unfold channel_date_url. simpl. rewrite Hdate. reflexivity.
Qed.

Lemma next_then_previous_returns_witness :
  let v := sample_day_view "2024" "01" "01" ∅ in
  let pg := (paged v).2 in
  let u := Url "log_day" (day_of_ymd 2024 1 3) in
  get_previous_page_link (set_date (PyDateTime (u_day u) 0 0) v) pg
  = Ok (Href (Url (u_viewname u) (day_of_ymd 2024 1 1))
          (qd_set "page" (PInt (pageCount v (date v))) (qd_copy (GET v)))).
Proof.
  intros v pg u.
  apply (next_then_previous_returns v (day_of_ymd 2024 1 1) 0 pg pg u
           (qd_set "page" (PInt 1) (qd_copy (GET v)))).
  - vm_compute. reflexivity.
  - intros t. vm_compute. reflexivity.
  - vm_compute. discriminate.
  - vm_compute. reflexivity.
  - vm_compute. reflexivity.
  - vm_compute. reflexivity.
Defined.

(** X20: the other way round: the previous link of a day's first page leads to
    a day whose last page links forward to page 1 of the day one came
    from. *)
Theorem previous_then_next_returns (self : View) (day off : Z) (pg pg' : Page)
    (u : url) (params : gmap string (list pval)) :
  date self = PyDateTime day 0 off ->
  (forall t, tz_utcoffset (request_timezone self) t = off) ->
  1 <= day_count self (date self) ->
  has_previous pg = false ->
  has_next pg' = false ->
  get_previous_page_link self pg = Ok (Href u params) ->
  get_next_page_link (set_date (PyDateTime (u_day u) 0 off) self) pg'
  = Ok (Href (Url (u_viewname u) day) (qd_set "page" (PInt 1) (qd_copy (GET self)))).
Proof.
  intros Hdate Hfixed Hcount Hfirst Hlast Hprev.
  unfold get_previous_page_link in Hprev. rewrite Hfirst in Hprev. simpl in Hprev.
  destruct (_get_previous_date self) as [d'|] eqn:Hd'; [|discriminate].
  injection Hprev as <- _.
  assert (Hd'' : d' = PyDateTime (calendar_day d') 0 off).
  { unfold _get_previous_date in Hd'. destruct (qs_first _) as [r|]; [|discriminate].
    injection Hd' as <-. rewrite (local_midnight_fixed self off Hfixed). reflexivity. }
  change (u_day (channel_date_url self (Some d'))) with (calendar_day d').
  rewrite <- Hd''.
  pose proof (previous_then_next_date self day off Hdate Hfixed Hcount d' Hd') as Hback.
  unfold get_next_page_link. rewrite Hlast, Hback. simpl.
  unfold channel_date_url. simpl. rewrite Hdate. reflexivity.
Qed.

Lemma previous_then_next_returns_witness :
  let v := sample_day_view "2024" "01" "03" ∅ in
  let pg := (paged v).2 in
  let u := Url "log_day" (day_of_ymd 2024 1 1) in
  get_next_page_link (set_date (PyDateTime (u_day u) 0 0) v) pg
  = Ok (Href (Url (u_viewname u) (day_of_ymd 2024 1 3))
          (qd_set "page" (PInt 1) (qd_copy (GET v)))).
Proof.
  intros v pg u.
  apply (previous_then_next_returns v (day_of_ymd 2024 1 3) 0 pg pg u
           (qd_set "page" (PInt 1) (qd_copy (GET v)))).
  - vm_compute. reflexivity.
  - intros t. vm_compute. reflexivity.
  - vm_compute. discriminate.
  - vm_compute. reflexivity.
  - vm_compute. reflexivity.
  - vm_compute. reflexivity.
Defined.

(** ** The first page of a dated request *)

Lemma slice_first_page (pb : Z) (l : list Log) :
  0 < pb ->
  slice 0 (if Z.of_nat (length l) <=? 0 + pb then Z.of_nat (length l) else 0 + pb) l
  = take (Z.to_nat pb) l.
Proof.
  intros Hpb. unfold slice. rewrite drop_0.
  destruct (Z.leb_spec (Z.of_nat (length l)) (0 + pb)).
  - rewrite Z.sub_0_r, Nat2Z.id. rewrite !take_ge by lia. reflexivity.
  - rewrite Z.sub_0_r. reflexivity.
Qed.

Lemma first_page_exists p :
  0 < per_page p -> allow_empty_first_page p = true ->
  page p 1 = Ok (MkPage (take (Z.to_nat (per_page p)) (qs_list (object_list p))) 1 p)
  /\ 1 <= num_pages p.
Proof.
  intros Hpb Hae.
  assert (Hn : 1 <= num_pages p).
  { unfold num_pages. rewrite Hae, andb_false_r. apply ceil_div_pos; [exact Hpb|lia]. }
  split; [|exact Hn].
  unfold page. rewrite validate_number_ok by lia. simpl.
  rewrite count_length. rewrite Z.mul_0_l.
  rewrite (slice_first_page (per_page p) _ Hpb). reflexivity.
Qed.

(** X21: a dated request that names no page cannot fail in a view that allows
    empty lists, as long as the date, the clock and the visible messages
    stay within the range of [datetime] (no computation of a day's
    window or of a local day overflows): it renders page 1, the first
    [paginate_by] messages of the day in time order (none when the day is
    empty). *)
Theorem dated_first_page_always_renders (self v : View) (d : pytime) :
  set_view_date self = Ok (v, d) ->
  within_datetime_range self d ->
  allow_empty self = true ->
  0 < paginate_by self ->
  or_else (kwargs v !! "page") (qd_get (GET self) "page") = None ->
  exists ctx,
    get self = Ok (Rendered ctx)
    /\ message_list ctx
       = take (Z.to_nat (paginate_by self)) (qs_list (get_queryset (set_date d v))).
Proof.
  intros Hsvd _ Hae Hpb Hpage.
  rewrite (get_unfold self v d Hsvd).
  set (w := set_object_list (get_queryset (set_date d v)) (set_date d v)). cbv zeta.
  assert (Hsame : allow_empty w = allow_empty self /\ paginate_by w = paginate_by self
                  /\ GET w = GET self /\ kwargs w = kwargs v).
  { destruct (set_view_date_inv self v d Hsvd) as [E | E]; subst v; repeat split; reflexivity. }
  destruct Hsame as (Ha & Hb & HG & Hk).
  rewrite Ha, Hae. simpl.
  set (p := ListView_get_paginator w (view_object_list w) (paginate_by w)).
  destruct (first_page_exists p) as [Hpg Hn].
  { change (per_page p) with (paginate_by w). rewrite Hb. exact Hpb. }
  { change (allow_empty_first_page p) with (allow_empty w). rewrite Ha. exact Hae. }
  set (pg := MkPage (take (Z.to_nat (per_page p)) (qs_list (object_list p))) 1 p) in Hpg.
  assert (Hlv : ListView_paginate_queryset w (view_object_list w) (paginate_by w)
                = Ok (p, pg)).
  { assert (Hpage' : or_else (kwargs w !! "page") (qd_get (GET w) "page") = None)
      by (rewrite Hk, HG; exact Hpage).
    unfold ListView_paginate_queryset. rewrite Hpage'.
    change (ListView_get_paginator w (view_object_list w) (paginate_by w)) with p.
    transitivity (match page p 1 with
                  | Ok pg => Ok (p, pg)
                  | Raise (EmptyPage msg) => Raise (Http404 msg)
                  | Raise e => Raise e
                  end); [reflexivity|].
    rewrite Hpg. reflexivity. }
  assert (Hnx : exists l, get_next_page_link w pg = Ok l).
  { unfold get_next_page_link. destruct (has_next pg) eqn:Hh; simpl.
    - unfold next_page_number. unfold has_next in Hh. apply Z.ltb_lt in Hh.
      simpl in Hh. rewrite validate_number_ok; [simpl; eauto|simpl; lia|simpl; lia].
    - destruct (_get_next_date w); eauto. }
  assert (Hpv : exists l, get_previous_page_link w pg = Ok l).
  { unfold get_previous_page_link, has_previous. simpl.
    destruct (_get_previous_date w); eauto. }
  destruct Hnx as [nl Hnx]. destruct Hpv as [pl Hpv].
  unfold get_context_data.
  destruct (Z.eqb_spec (paginate_by w) 0) as [E|_]; [lia|].
  unfold paginate_queryset, Mixin_paginate_queryset.
  rewrite Hlv. simpl. rewrite Hnx. simpl. rewrite Hpv. simpl.
  eexists. split; [reflexivity|]. rewrite <- Hb. reflexivity.
Qed.

Lemma dated_first_page_always_renders_witness :
  let self := with_paginate_by 2
                (DayLogViewer sample_platform Html (day_kwargs "2024" "01" "01") ∅
                   sample_channel) in
  let d := PyDateTime (day_of_ymd 2024 1 1) 0 0 in
  exists ctx,
    get self = Ok (Rendered ctx)
    /\ message_list ctx
       = take (Z.to_nat (paginate_by self)) (qs_list (get_queryset (set_date d self))).
Proof.
  intros self d.
  apply (dated_first_page_always_renders self self d).
  - vm_compute. reflexivity.
  - unfold within_datetime_range, valid_zone, inner_day.
    split; [split; [|intros t]; vm_compute; split; reflexivity|].
    split; [vm_compute; split; reflexivity|].
    split; [vm_compute; split; [reflexivity|discriminate]|].
    intros r Hr. vm_compute in Hr.
    repeat (destruct Hr as [<- | Hr]; [vm_compute; split; reflexivity|]).
    destruct Hr.
  - reflexivity.
  - reflexivity.
  - reflexivity.
Defined.

(** ** Following a permalink *)

Lemma qd_update_msg_page (d : gmap string (list pval)) (a b : pval) :
  qd_get (qd_update d [("msg", a); ("page", b)]) "page" = Some b.
Proof.
  unfold qd_update, qd_get. simpl.
  rewrite lookup_insert_eq. simpl. apply last_snoc.
Qed.

(** X22: the page a permalink names is the page the day view shows the message
    on: in a request whose zone has no offset of its own (UTC), the day
    view for the redirect's day, with the same page size, has the message
    on the page the redirect's [page] parameter reads, whatever [page] the
    permalink request itself carried. *)
Theorem permalink_page_shows_the_message (self : View) (Log_objects : list Log)
    (c : gmap string cache_entry) (s : string) (log : Log) :
  0 < paginate_by self ->
  kwargs self !! "msg_pk" = Some s ->
  get_object_or_404 self Log_objects s = Ok log ->
  In log (filtered_logs (channel self)) ->
  cache_get (utc_now (platform self)) c (cache_key log) = None ->
  tz_unlocalized (request_timezone self) = 0 ->
  exists u q n,
    (SingleLogViewer_get self Log_objects c).1.1 = Ok (Redirect u q true)
    /\ qd_get q "page" = Some (PInt n)
    /\ let day_view :=
         set_date (PyDateTime (u_day u) 0 (tz_unlocalized (request_timezone self)))
           self in
       page_has (get_paginator day_view (get_queryset day_view) (paginate_by self))
         log n = true.
Proof.
  intros Hpb Hkw Hobj Hin Hmiss Htz.
  set (day := utc_date (timestamp log)).
  set (v := set_object_list (get_queryset (set_date day self)) (set_date day self)).
  assert (Hrow : In log (qs_rows (view_object_list v))).
  { unfold v. simpl. apply filter_In. split; [exact Hin|].
    pose proof (own_day_window (timestamp log)) as Hw.
    unfold timestamp__gte, timestamp__lt. apply andb_true_iff.
    split; [apply Z.leb_le|apply Z.ltb_lt]; apply Hw. }
  destruct (permalink_cold v log c Hpb Hmiss Hrow) as (n & H1 & Hhas & Hmin & Hcold).
  eexists _, _, (Z.of_nat n). split; [|split].
  - unfold SingleLogViewer_get. rewrite Hkw, Hobj. fold day. fold v.
    rewrite Hcold. reflexivity.
  - apply qd_update_msg_page.
  - cbv zeta. rewrite Htz.
    assert (Hq : get_queryset
                   (set_date (PyDateTime (u_day (channel_date_url v None)) 0 0) self)
                 = get_queryset (set_date day self)).
    { unfold get_queryset. simpl.
      replace (timestamp log / US_PER_DAY * US_PER_DAY + 0 - 0)
        with (timestamp log / US_PER_DAY * US_PER_DAY) by lia.
      replace ((timestamp log / US_PER_DAY + 1) * US_PER_DAY + 0 - 0)
        with ((timestamp log / US_PER_DAY + 1) * US_PER_DAY) by lia.
      reflexivity. }
    rewrite Hq. exact Hhas.
Qed.

Lemma permalink_page_shows_the_message_witness :
  let self := with_paginate_by 2
                (DayLogViewer sample_platform Html (<["msg_pk" := "3"]> ∅)
                   (<["page" := ["9"]]> ∅) sample_channel) in
  let Log_objects := filtered_logs sample_channel in
  let log := MkLog 3 (at_ 2024 1 1 11) "alice" "PRIVMSG" in
  exists u q n,
    (SingleLogViewer_get self Log_objects ∅).1.1 = Ok (Redirect u q true)
    /\ qd_get q "page" = Some (PInt n)
    /\ let day_view :=
         set_date (PyDateTime (u_day u) 0 (tz_unlocalized (request_timezone self)))
           self in
       page_has (get_paginator day_view (get_queryset day_view) (paginate_by self))
         log n = true.
Proof.
  intros self Log_objects log.
  apply (permalink_page_shows_the_message self Log_objects ∅ "3" log).
  - reflexivity.
  - reflexivity.
  - vm_compute. reflexivity.
  - right; right; left. reflexivity.
  - reflexivity.
  - reflexivity.
Defined.
